(** * The Twilio <-> ElevenLabs media-stream bridge of [inbound-calls.js]

    A shallow embedding of [registerInboundRoutes]: the closure variables
    of the [/media-stream] handler become a record, every event listener
    becomes a function from that record to an outcome (the new record and
    the calls made on the two sockets), and the socket library delivers
    events to the listeners through [step]; [run] handles a list of
    events from the moment the listeners are attached.  [getSignedUrl] is
    present through the URL it requests.  The earlier revision of the same
    module, kept in the repository as a second file, is embedded in
    [Rev0] and compared with the current one at the end.

    What is left out: what [console.log] / [console.error] write (the one
    log line that can raise is kept as that), and the bytes of
    [JSON.stringify]: a frame that the source serialises is recorded as
    the value handed to [JSON.stringify], and [Js.on_wire] gives what the
    text written for it denotes; a frame that the source parses arrives as
    the result of [JSON.parse]. *)

From Stdlib Require Import String Ascii List ZArith NArith Bool Lia.
From Stdlib Require Import DecimalString.
Import ListNotations.
Local Open Scope string_scope.
Local Open Scope list_scope.

(** ** JavaScript values, as far as the handlers look at them *)

Module Js.

(** The values [JSON.parse] can return, and [undefined], which a missing
    property reads as.  An object lists its own properties in the order
    they are enumerated, with distinct keys.  A number is an integer
    ([VNum]), another finite value [m / 2^e] ([VFrac]), or plus or minus
    [Infinity] ([VInf]), which [JSON.parse] returns for a literal beyond
    the range of a double, such as [1e999]; it never returns [NaN]. *)
#[warnings="-register-all"] Inductive value : Type :=
| VUndefined
| VNull
| VBool (b : bool)
| VNum (n : Z)
| VStr (s : string)
| VArr (items : list value)
| VObj (fields : list (string * value))
| VFrac (m : Z) (e : positive)
| VInf (negative : bool).

(** [ToBoolean]. *)
Definition truthy (v : value) : bool :=
  match v with
  | VUndefined | VNull => false
  | VBool b => b
  | VNum n => negb (n =? 0)%Z
  | VStr s => negb (s =? "")
  | VArr _ | VObj _ => true
  | VFrac m _ => negb (m =? 0)%Z
  | VInf _ => true
  end.

(** [v === "lit"] for a string literal. *)
Definition is_string (v : value) (lit : string) : bool :=
  match v with
  | VStr s => s =? lit
  | _ => false
  end.

Fixpoint own (fields : list (string * value)) (k : string) : value :=
  match fields with
  | [] => VUndefined
  | (k', v) :: rest => if k' =? k then v else own rest k
  end.

(** [v.k].  Reading a property of [null] or [undefined] raises a
    TypeError ([None]).  Primitives and arrays have none of the property
    names the handlers read ([event], [type], [start], [media], [payload],
    [streamSid], [audio_event], [audio_base_64]), neither has
    [Object.prototype]: for these names the read is the own property. *)
Definition prop (v : value) (k : string) : option value :=
  match v with
  | VUndefined | VNull => None
  | VObj fields => Some (own fields k)
  | VBool _ | VNum _ | VStr _ | VArr _ | VFrac _ _ | VInf _ => Some VUndefined
  end.

(** [v?.k]. *)
Definition opt_prop (v : value) (k : string) : value :=
  match prop v k with
  | Some x => x
  | None => VUndefined
  end.

(** [null] and [undefined]: the values no property can be read off.
    [JSON.parse] never returns [undefined]. *)
Definition nullish (v : value) : bool :=
  match v with
  | VUndefined | VNull => true
  | _ => false
  end.

(** [a || b] on values. *)
Definition or_else (a b : value) : value := if truthy a then a else b.

Fixpoint has_key (fields : list (string * value)) (k : string) : bool :=
  match fields with
  | [] => false
  | (k', _) :: rest => (k' =? k) || has_key rest k
  end.

(** Whether [ToString(v)], as a template literal applies it, raises a
    TypeError.  An object that [JSON.parse] built converts through
    [Object.prototype.toString] unless it has an own [toString] property:
    that property is not callable, [valueOf] then gives back the object,
    and no primitive is reached.  An array converts through [join], which
    converts its elements, [null] and [undefined] to the empty string. *)
Fixpoint to_string_raises (v : value) : bool :=
  match v with
  | VObj fields => has_key fields "toString"
  | VArr items => existsb to_string_raises items
  | _ => false
  end.

(** What the text [JSON.stringify(v)] denotes, for a [v] that is not
    [undefined]: a number that is not finite is written [null], a
    property whose value is [undefined] is left out, an [undefined]
    element of an array is written [null]; everything else is written as
    it is.  (No value here has a callable [toJSON].) *)
Fixpoint on_wire (v : value) : value :=
  match v with
  | VInf _ => VNull
  | VArr items =>
      VArr (map (fun x => match x with
                          | VUndefined => VNull
                          | _ => on_wire x
                          end) items)
  | VObj fields =>
      VObj ((fix written (fs : list (string * value)) : list (string * value) :=
               match fs with
               | [] => []
               | (k, x) :: rest =>
                   match x with
                   | VUndefined => written rest
                   | _ => (k, on_wire x) :: written rest
                   end
               end) fields)
  | _ => v
  end.

End Js.

Import Js.

(** ** The session: the closure of the [/media-stream] handler *)

(** [WebSocket.readyState] of the [ws] package. *)
Inductive readyState : Type := CONNECTING | OPEN | CLOSING | CLOSED.

Definition is_OPEN (r : readyState) : bool :=
  match r with OPEN => true | _ => false end.

(** The [let] variables of the handler (lines 61-73).  [elevenWs] is
    [None] for [null], otherwise the socket's [readyState]. *)
Record session : Type := mkSession {
  streamSid : value;
  elevenWs : option readyState;
  twilioStarted : bool;
  elevenOpen : bool;
  convoStarted : bool;
  twilioInboundFrames : N;
  twilioOutboundFrames : N
}.

Definition set_streamSid (v : value) (s : session) : session :=
  mkSession v (elevenWs s) (twilioStarted s) (elevenOpen s) (convoStarted s)
            (twilioInboundFrames s) (twilioOutboundFrames s).
Definition set_elevenWs (w : option readyState) (s : session) : session :=
  mkSession (streamSid s) w (twilioStarted s) (elevenOpen s) (convoStarted s)
            (twilioInboundFrames s) (twilioOutboundFrames s).
Definition set_twilioStarted (b : bool) (s : session) : session :=
  mkSession (streamSid s) (elevenWs s) b (elevenOpen s) (convoStarted s)
            (twilioInboundFrames s) (twilioOutboundFrames s).
Definition set_elevenOpen (b : bool) (s : session) : session :=
  mkSession (streamSid s) (elevenWs s) (twilioStarted s) b (convoStarted s)
            (twilioInboundFrames s) (twilioOutboundFrames s).
Definition set_convoStarted (b : bool) (s : session) : session :=
  mkSession (streamSid s) (elevenWs s) (twilioStarted s) (elevenOpen s) b
            (twilioInboundFrames s) (twilioOutboundFrames s).

(** [n++] on a frame counter.  The counters are doubles that start at 0
    and only ever grow by one: they hold the integers up to 2^53, and at
    2^53 adding one rounds back to 2^53. *)
Definition plus_plus (n : N) : N :=
  if (n <? 2 ^ 53)%N then (n + 1)%N else n.

Definition incr_twilioInboundFrames (s : session) : session :=
  mkSession (streamSid s) (elevenWs s) (twilioStarted s) (elevenOpen s)
            (convoStarted s) (plus_plus (twilioInboundFrames s))
            (twilioOutboundFrames s).
Definition incr_twilioOutboundFrames (s : session) : session :=
  mkSession (streamSid s) (elevenWs s) (twilioStarted s) (elevenOpen s)
            (convoStarted s) (twilioInboundFrames s)
            (plus_plus (twilioOutboundFrames s)).

(** The calls a listener makes on the two sockets, in program order.
    [Send_elevenWs v] is [elevenWs.send(JSON.stringify(v))],
    [Send_connection v] is [connection.send(JSON.stringify(v))]. *)
Inductive action : Type :=
| Send_elevenWs (v : value)
| Close_elevenWs
| Send_connection (v : value)
| Close_connection_socket.

(** How a listener ends: it returns, or an exception leaves it.  [S] is
    the type of the closure's variables. *)
Inductive outcome (S : Type) : Type :=
| Returns (s : S) (out : list action)
| Throws (s : S) (out : list action).
Arguments Returns {S} s out.
Arguments Throws {S} s out.

Definition final {S : Type} (o : outcome S) : S :=
  match o with Returns s _ | Throws s _ => s end.
Definition calls {S : Type} (o : outcome S) : list action :=
  match o with Returns _ out | Throws _ out => out end.
Definition returned {S : Type} (o : outcome S) : bool :=
  match o with Returns _ _ => true | Throws _ _ => false end.

(** [elevenWs && elevenWs.readyState === WebSocket.OPEN]. *)
Definition elevenWs_is_open (s : session) : bool :=
  match elevenWs s with
  | Some r => is_OPEN r
  | None => false
  end.

(** [elevenWs.close()] in [ws]: an open or connecting socket starts its
    closing handshake, a closed one stays closed. *)
Definition ws_close (r : readyState) : readyState :=
  match r with
  | CLOSED => CLOSED
  | _ => CLOSING
  end.

(** ** The frames the bridge builds *)

Definition start_frame : value := VObj [("type", VStr "start")].

Definition conversation_config_frame : value :=
  VObj [("type", VStr "conversation_config");
        ("conversation_config",
         VObj [("audio",
                VObj [("output",
                       VObj [("encoding", VStr "mulaw");
                             ("sample_rate", VNum 8000)])])])].

Definition twilioFrame (sid payload : value) : value :=
  VObj [("event", VStr "media");
        ("streamSid", sid);
        ("media", VObj [("payload", payload)])].

Definition clear_frame (sid : value) : value :=
  VObj [("event", VStr "clear"); ("streamSid", sid)].

Definition user_audio_chunk_frame (payload : value) : value :=
  VObj [("user_audio_chunk", payload)].

(** ** The listeners of [inbound-calls.js] *)

(** [tryStartConversation] (lines 75-88). *)
Definition tryStartConversation (s : session) : session * list action :=
  if convoStarted s then (s, [])
  else if negb (twilioStarted s) || negb (truthy (streamSid s)) then (s, [])
  else if negb (elevenWs_is_open s) then (s, [])
  else if negb (elevenOpen s) then (s, [])
  else (set_convoStarted true s, [Send_elevenWs start_frame]).

(** [elevenWs.on("open", ...)] (lines 98-121).  The listener is attached
    to the socket [elevenWs] holds; were the variable [null], the call
    [elevenWs.send] would raise. *)
Definition elevenWs_on_open (s : session) : outcome session :=
  let s1 := set_elevenOpen true s in
  match elevenWs s1 with
  | None => Throws s1 []
  | Some _ =>
      let '(s2, out) := tryStartConversation s1 in
      Returns s2 (Send_elevenWs conversation_config_frame :: out)
  end.

(** [elevenWs.on("message", ...)] (lines 123-176).  [raw] is what
    [JSON.parse(raw.toString())] gives: [None] when it raises. *)
Definition elevenWs_on_message (raw : option value) (s : session) : outcome session :=
  match raw with
  | None => Returns s []
  | Some msg =>
      match prop msg "type" with
      | None => Throws s []
      | Some type =>
          let audio_base_64 :=
            opt_prop (opt_prop msg "audio_event") "audio_base_64" in
          let interruption (s' : session) (out : list action) : outcome session :=
            if is_string type "interruption" && truthy (streamSid s')
            then Returns s' (out ++ [Send_connection (clear_frame (streamSid s'))])
            else Returns s' out in
          if is_string type "audio" && truthy audio_base_64 then
            if negb (truthy (streamSid s)) then Returns s []
            else
              interruption (incr_twilioOutboundFrames s)
                [Send_connection (twilioFrame (streamSid s) audio_base_64)]
          else interruption s []
      end
  end.

(** [elevenWs.on("close", ...)] and [elevenWs.on("error", ...)]
    (lines 178-184): a log line each. *)
Definition elevenWs_on_close (s : session) : outcome session := Returns s [].
Definition elevenWs_on_error (s : session) : outcome session := Returns s [].

(** The three places that read
    [if (elevenWs && elevenWs.readyState === WebSocket.OPEN) elevenWs.close()]. *)
Definition close_elevenWs_if_open (s : session) : session * list action :=
  if elevenWs_is_open s
  then (set_elevenWs (option_map ws_close (elevenWs s)) s, [Close_elevenWs])
  else (s, []).

(** [connection.on("message", ...)] (lines 187-233).  The log line of
    the "start" branch interpolates [streamSid] into a template literal,
    which raises when the value has no string conversion. *)
Definition connection_on_message (raw : option value) (s : session) : outcome session :=
  match raw with
  | None => Returns s []
  | Some data =>
      match prop data "event" with
      | None => Throws s []
      | Some event =>
          if is_string event "start" then
            let s1 :=
              set_streamSid
                (or_else (opt_prop (opt_prop data "start") "streamSid") VNull) s in
            let s2 := set_twilioStarted true s1 in
            (* console.log(`[Twilio] Stream started: ${streamSid}`) *)
            if to_string_raises (streamSid s2) then Throws s2 []
            else
              let '(s3, out) := tryStartConversation s2 in
              Returns s3 out
          else
            let payload := opt_prop (opt_prop data "media") "payload" in
            let '(s1, out1) :=
              if is_string event "media" then
                if elevenWs_is_open s && truthy payload
                then (incr_twilioInboundFrames s,
                      [Send_elevenWs (user_audio_chunk_frame payload)])
                else (s, [])
              else (s, []) in
            let '(s2, out2) :=
              if is_string event "stop" then close_elevenWs_if_open s1
              else (s1, []) in
            Returns s2 (out1 ++ out2)
      end
  end.

(** [connection.on("close", ...)] and [connection.on("error", ...)]
    (lines 235-247). *)
Definition connection_on_close (s : session) : outcome session :=
  let '(s1, out) := close_elevenWs_if_open s in Returns s1 out.
Definition connection_on_error (s : session) : outcome session :=
  let '(s1, out) := close_elevenWs_if_open s in Returns s1 out.

(** ** Event delivery *)

(** What the two sockets deliver to the listeners. *)
Inductive event : Type :=
| Ev_elevenWs_open
| Ev_elevenWs_message (raw : option value)
| Ev_elevenWs_close
| Ev_elevenWs_error
| Ev_connection_message (raw : option value)
| Ev_connection_close
| Ev_connection_error.

(** The socket library moves [readyState] before it calls the listener:
    to [OPEN] for "open", to [CLOSED] for "close", to [CLOSING] for
    "error".  [step] accepts every event in every state; the runs of the
    real library (one "open", from [CONNECTING]) are among them. *)
Definition ws_moves_to (r : readyState) (s : session) : session :=
  set_elevenWs (option_map (fun _ => r) (elevenWs s)) s.

Definition step (s : session) (e : event) : outcome session :=
  match e with
  | Ev_elevenWs_open => elevenWs_on_open (ws_moves_to OPEN s)
  | Ev_elevenWs_message raw => elevenWs_on_message raw s
  | Ev_elevenWs_close => elevenWs_on_close (ws_moves_to CLOSED s)
  | Ev_elevenWs_error => elevenWs_on_error (ws_moves_to CLOSING s)
  | Ev_connection_message raw => connection_on_message raw s
  | Ev_connection_close => connection_on_close s
  | Ev_connection_error => connection_on_error s
  end.

(** The calls [out] were made before [o] began. *)
Definition after (out : list action) (o : outcome session) : outcome session :=
  match o with
  | Returns s out' => Returns s (out ++ out')
  | Throws s out' => Throws s (out ++ out')
  end.

(** Events are handled one at a time, each listener running to its end.
    An exception that leaves a listener is caught by nobody: the run
    stops there. *)
Fixpoint run (s : session) (evs : list event) : outcome session :=
  match evs with
  | [] => Returns s []
  | e :: rest =>
      match step s e with
      | Returns s1 out1 => after out1 (run s1 rest)
      | Throws s1 out1 => Throws s1 out1
      end
  end.

(** The session when the listeners have just been attached (line 96 has
    run, no event has been delivered). *)
Definition init : session :=
  mkSession VNull (Some CONNECTING) false false false 0 0.

(** ** Reading a run *)

Definition sends_start (a : action) : bool :=
  match a with
  | Send_elevenWs v => is_string (opt_prop v "type") "start"
  | _ => false
  end.

Definition starts (out : list action) : nat :=
  length (filter sends_start out).

Definition on_elevenWs (a : action) : bool :=
  match a with
  | Send_elevenWs _ | Close_elevenWs => true
  | _ => false
  end.

Definition is_close (a : action) : bool :=
  match a with
  | Close_elevenWs | Close_connection_socket => true
  | _ => false
  end.

(** A caller "start" frame that carries a stream identifier. *)
Definition start_with_sid (e : event) : bool :=
  match e with
  | Ev_connection_message (Some data) =>
      is_string (opt_prop data "event") "start"
      && truthy (opt_prop (opt_prop data "start") "streamSid")
  | _ => false
  end.

Definition is_open_event (e : event) : bool :=
  match e with Ev_elevenWs_open => true | _ => false end.

(** The frames Twilio and ElevenLabs send, as [JSON.parse] returns them. *)
Definition caller_start (sid : value) : value :=
  VObj [("event", VStr "start"); ("start", VObj [("streamSid", sid)])].
Definition caller_media (payload : value) : value :=
  VObj [("event", VStr "media"); ("media", VObj [("payload", payload)])].
Definition caller_stop : value := VObj [("event", VStr "stop")].
Definition agent_audio (payload : value) : value :=
  VObj [("type", VStr "audio");
        ("audio_event", VObj [("audio_base_64", payload)])].
Definition agent_interruption : value := VObj [("type", VStr "interruption")].

(** [convoStarted] as a count of start signals. *)
Definition started (s : session) : nat := if convoStarted s then 1 else 0.

Definition has_open (evs : list event) : bool := existsb is_open_event evs.
Definition has_start_with_sid (evs : list event) : bool :=
  existsb start_with_sid evs.

(** What holds of every session a run from [init] can be in: an open
    agent socket has had its "open" listener run, and the gate is never
    left standing open without having fired. *)
Definition gate_settled (s : session) : Prop :=
  (elevenWs_is_open s = true -> elevenOpen s = true)
  /\ (twilioStarted s = true -> truthy (streamSid s) = true ->
      elevenWs_is_open s = true -> convoStarted s = true).

(** Every frame for the caller leg carries a truthy [streamSid]. *)
Definition carries_streamSid (a : action) : bool :=
  match a with
  | Send_connection v => truthy (opt_prop v "streamSid")
  | _ => true
  end.

(** The calls made on the agent socket, and the property that the first
    of them is the configuration frame. *)
Definition agent_leg (out : list action) : list action := filter on_elevenWs out.

Definition config_first (out : list action) : Prop :=
  match agent_leg out with
  | [] => True
  | a :: _ => a = Send_elevenWs conversation_config_frame
  end.

(** The events that end the caller side: the caller socket closes or
    fails, or the caller sends a "stop" frame. *)
Definition caller_leg_down (e : event) : bool :=
  match e with
  | Ev_connection_close | Ev_connection_error => true
  | _ => false
  end.

Definition caller_teardown (e : event) : bool :=
  match e with
  | Ev_connection_close | Ev_connection_error => true
  | Ev_connection_message (Some data) => is_string (opt_prop data "event") "stop"
  | _ => false
  end.

(** The agent socket closes or fails. *)
Definition agent_leg_down (e : event) : bool :=
  match e with
  | Ev_elevenWs_close | Ev_elevenWs_error => true
  | _ => false
  end.

Definition closes_connection (a : action) : bool :=
  match a with Close_connection_socket => true | _ => false end.

(** ** Setting the session up *)

Inductive setup : Type :=
| Listening (s : session)
| Failed (s : session) (out : list action).

(** The body of the [/media-stream] handler around the listeners (lines
    58-96 and 248-259).  [signedUrl] is [None] when [getSignedUrl] raises,
    [constructed] tells whether [new WebSocket(signedUrl)] returns,
    [connection_socket] whether [connection.socket] is truthy.  Attaching
    listeners raises nothing, so the [catch] block runs with [elevenWs]
    still [null]. *)
Definition media_stream
    (signedUrl : option value) (constructed connection_socket : bool) : setup :=
  let s0 := mkSession VNull None false false false 0 0 in
  let catch (s : session) : setup :=
    let '(s1, out1) := close_elevenWs_if_open s in
    Failed s1
      (out1 ++ if connection_socket then [Close_connection_socket] else []) in
  match signedUrl with
  | None => catch s0
  | Some _ =>
      if constructed then Listening (set_elevenWs (Some CONNECTING) s0)
      else catch s0
  end.

(** ** The credential request of [getSignedUrl] *)

Module Url.

(** The characters [encodeURIComponent] leaves as they are:
    [A-Z a-z 0-9 - _ . ! ~ * ' ( )]. *)
Definition unreserved (c : ascii) : bool :=
  let n := N_of_ascii c in
  ((48 <=? n) && (n <=? 57) || (65 <=? n) && (n <=? 90)
   || (97 <=? n) && (n <=? 122))%N
  || existsb (Ascii.eqb c) ["-"; "_"; "."; "!"; "~"; "*"; "'"; "("; ")"]%char.

Definition hex_digit (n : N) : ascii :=
  ascii_of_N (if (n <? 10)%N then 48 + n else 55 + n)%N.

(** [%XX], upper-case hexadecimal. *)
Definition percent_encode (c : ascii) : string :=
  String "%"
    (String (hex_digit (N_of_ascii c / 16))
       (String (hex_digit (N_of_ascii c mod 16)) "")).

(** [encodeURIComponent] on the UTF-8 bytes of its argument: the
    standard function encodes the string as UTF-8 and escapes every byte
    that is not an unreserved character.  (It raises on a lone surrogate;
    a value of [process.env] has none.) *)
Fixpoint encodeURIComponent (s : string) : string :=
  match s with
  | EmptyString => EmptyString
  | String c rest =>
      (if unreserved c then String c EmptyString else percent_encode c)
      ++ encodeURIComponent rest
  end.

Definition hex_value (c : ascii) : option N :=
  let n := N_of_ascii c in
  if ((48 <=? n) && (n <=? 57))%N then Some (n - 48)%N
  else if ((65 <=? n) && (n <=? 70))%N then Some (n - 55)%N
  else if ((97 <=? n) && (n <=? 102))%N then Some (n - 87)%N
  else None.

(** Percent-decoding, as the receiving server applies it to a query
    value. *)
Fixpoint percent_decode (s : string) : option string :=
  match s with
  | EmptyString => Some EmptyString
  | String c rest =>
      if (c =? "%")%char then
        match rest with
        | String h (String l rest') =>
            match hex_value h, hex_value l with
            | Some a, Some b =>
                option_map (String (ascii_of_N (16 * a + b)))
                           (percent_decode rest')
            | _, _ => None
            end
        | _ => None
        end
      else option_map (String c) (percent_decode rest)
  end.

(** The query component: what follows the first "?". *)
Fixpoint query (url : string) : option string :=
  match url with
  | EmptyString => None
  | String c rest => if (c =? "?")%char then Some rest else query rest
  end.

Fixpoint strip_prefix (p s : string) : option string :=
  match p, s with
  | EmptyString, _ => Some s
  | String a p', String b s' => if (a =? b)%char then strip_prefix p' s' else None
  | String _ _, EmptyString => None
  end.

(** A query value ends at the next "&" or at the fragment "#". *)
Fixpoint until_delimiter (s : string) : string :=
  match s with
  | EmptyString => EmptyString
  | String c rest =>
      if ((c =? "&") || (c =? "#"))%char then EmptyString
      else String c (until_delimiter rest)
  end.

(** The raw value of the first query parameter, if it is called [name]. *)
Definition first_param (name url : string) : option string :=
  match query url with
  | None => None
  | Some q =>
      match strip_prefix (name ++ "=") q with
      | Some v => Some (until_delimiter v)
      | None => None
      end
  end.

Definition safe_in_query (c : ascii) : bool :=
  unreserved c || (c =? "%")%char.

End Url.

Definition all_chars (p : ascii -> bool) (s : string) : bool :=
  forallb p (list_ascii_of_string s).

(** The URL [getSignedUrl] fetches (lines 17-20), for the agent
    identifier in [ELEVENLABS_AGENT_ID]. *)
Definition getSignedUrl_url (ELEVENLABS_AGENT_ID : string) : string :=
  "https://api.elevenlabs.io/v1/convai/conversation/get_signed_url?agent_id="
  ++ Url.encodeURIComponent ELEVENLABS_AGENT_ID.

(** ** The earlier revision of the module (the second source file)

    The same routes without the conversation gate: no readiness flags, no
    frame counters, no start signal, the agent identifier pasted into the
    URL as it is, [data.start.streamSid] read without [?.], and
    [elevenWs.close()] called whenever [elevenWs] is set. *)

Module Rev0.

Record session : Type := mkSession {
  streamSid : value;
  elevenWs : option readyState
}.

Definition elevenWs_is_open (s : session) : bool :=
  match elevenWs s with
  | Some r => is_OPEN r
  | None => false
  end.

Definition getSignedUrl_url (ELEVENLABS_AGENT_ID : string) : string :=
  "https://api.elevenlabs.io/v1/convai/conversation/get_signed_url?agent_id="
  ++ ELEVENLABS_AGENT_ID.

(** [elevenWs.on("open", ...)] (lines 68-83). *)
Definition elevenWs_on_open (s : session) : outcome session :=
  match elevenWs s with
  | None => Throws s []
  | Some _ => Returns s [Send_elevenWs conversation_config_frame]
  end.

(** [elevenWs.on("message", ...)] (lines 86-120). *)
Definition elevenWs_on_message (raw : option value) (s : session)
  : outcome session :=
  match raw with
  | None => Returns s []
  | Some msg =>
      match prop msg "type" with
      | None => Throws s []
      | Some type =>
          let audio_base_64 :=
            opt_prop (opt_prop msg "audio_event") "audio_base_64" in
          let out1 :=
            if is_string type "audio" && truthy audio_base_64
               && truthy (streamSid s)
            then [Send_connection (twilioFrame (streamSid s) audio_base_64)]
            else [] in
          let out2 :=
            if is_string type "interruption" && truthy (streamSid s)
            then [Send_connection (clear_frame (streamSid s))]
            else [] in
          Returns s (out1 ++ out2)
      end
  end.

Definition elevenWs_on_close (s : session) : outcome session := Returns s [].
Definition elevenWs_on_error (s : session) : outcome session := Returns s [].

(** [if (elevenWs) elevenWs.close()]. *)
Definition close_elevenWs (s : session) : session * list action :=
  match elevenWs s with
  | Some r => (mkSession (streamSid s) (Some (ws_close r)), [Close_elevenWs])
  | None => (s, [])
  end.

(** [connection.on("message", ...)] (lines 131-161). *)
Definition connection_on_message (raw : option value) (s : session)
  : outcome session :=
  match raw with
  | None => Returns s []
  | Some data =>
      match prop data "event" with
      | None => Throws s []
      | Some event =>
          if is_string event "start" then
            match prop (opt_prop data "start") "streamSid" with
            | None => Throws s []
            | Some sid =>
                (* console.log(`[Twilio] Stream started: ${streamSid}`) *)
                if to_string_raises sid
                then Throws (mkSession sid (elevenWs s)) []
                else Returns (mkSession sid (elevenWs s)) []
            end
          else
            let payload := opt_prop (opt_prop data "media") "payload" in
            let out1 :=
              if is_string event "media" && elevenWs_is_open s && truthy payload
              then [Send_elevenWs (user_audio_chunk_frame payload)]
              else [] in
            let '(s2, out2) :=
              if is_string event "stop" then close_elevenWs s else (s, []) in
            Returns s2 (out1 ++ out2)
      end
  end.

(** [connection.on("close", ...)] and [connection.on("error", ...)]
    (lines 163-171). *)
Definition connection_on_close (s : session) : outcome session :=
  let '(s1, out) := close_elevenWs s in Returns s1 out.
Definition connection_on_error (s : session) : outcome session :=
  let '(s1, out) := close_elevenWs s in Returns s1 out.

End Rev0.

(** The variables the two revisions share. *)
Definition rev0_view (s : session) : Rev0.session :=
  Rev0.mkSession (streamSid s) (elevenWs s).

Definition outcome_map {A B : Type} (f : A -> B) (o : outcome A) : outcome B :=
  match o with
  | Returns s out => Returns (f s) out
  | Throws s out => Throws (f s) out
  end.

(** ** More ways to read a run *)

(** A [{user_audio_chunk: payload}] frame for the agent, a
    [{event:"media", ...}] envelope for the caller. *)
Definition is_chunk (a : action) : bool :=
  match a with
  | Send_elevenWs v => truthy (opt_prop v "user_audio_chunk")
  | _ => false
  end.

Definition is_media_envelope (a : action) : bool :=
  match a with
  | Send_connection v => is_string (opt_prop v "event") "media"
  | _ => false
  end.

(** A message whose text is the JSON literal [null]. *)
Definition null_frame (e : event) : bool :=
  match e with
  | Ev_elevenWs_message (Some v) | Ev_connection_message (Some v) => nullish v
  | _ => false
  end.

(** The identifier on record after an event: a caller "start" frame
    replaces it, nothing else touches it. *)
Definition sid_after (e : event) (cur : value) : value :=
  match e with
  | Ev_connection_message (Some data) =>
      if is_string (opt_prop data "event") "start"
      then or_else (opt_prop (opt_prop data "start") "streamSid") VNull
      else cur
  | _ => cur
  end.

Definition recorded_sid (cur : value) (evs : list event) : value :=
  fold_left (fun c e => sid_after e c) evs cur.

(** The audio a frame carries, in either direction. *)
Definition media_payload (e : event) : list value :=
  match e with
  | Ev_connection_message (Some data) =>
      let payload := opt_prop (opt_prop data "media") "payload" in
      if is_string (opt_prop data "event") "media" && truthy payload
      then [payload] else []
  | _ => []
  end.

Definition chunk_payload (a : action) : list value :=
  match a with
  | Send_elevenWs v =>
      let payload := opt_prop v "user_audio_chunk" in
      if truthy payload then [payload] else []
  | _ => []
  end.

Definition audio_payload (e : event) : list value :=
  match e with
  | Ev_elevenWs_message (Some msg) =>
      let payload := opt_prop (opt_prop msg "audio_event") "audio_base_64" in
      if is_string (opt_prop msg "type") "audio" && truthy payload
      then [payload] else []
  | _ => []
  end.

Definition envelope_payload (a : action) : list value :=
  match a with
  | Send_connection v =>
      if is_string (opt_prop v "event") "media"
      then [opt_prop (opt_prop v "media") "payload"] else []
  | _ => []
  end.

(** The events after which the agent socket is no longer open. *)
Definition ends_agent_leg (e : event) : bool :=
  caller_teardown e || agent_leg_down e.

(** A caller "start" frame without identifier. *)
Definition start_lacks_sid (e : event) : bool :=
  match e with
  | Ev_connection_message (Some data) =>
      is_string (opt_prop data "event") "start"
      && negb (truthy (opt_prop (opt_prop data "start") "streamSid"))
  | _ => false
  end.

(** Messages no branch of the listeners is written for: text that does
    not parse, agent frames that are neither "audio" nor "interruption"
    (ping, transcripts, ...), caller frames that are none of "start",
    "media", "stop" (connected, mark, ...). *)
Definition unhandled (e : event) : bool :=
  match e with
  | Ev_elevenWs_message None | Ev_connection_message None => true
  | Ev_elevenWs_message (Some msg) =>
      negb (nullish msg)
      && negb (is_string (opt_prop msg "type") "audio")
      && negb (is_string (opt_prop msg "type") "interruption")
  | Ev_connection_message (Some data) =>
      negb (nullish data)
      && negb (is_string (opt_prop data "event") "start")
      && negb (is_string (opt_prop data "event") "media")
      && negb (is_string (opt_prop data "event") "stop")
  | _ => false
  end.

(** ** Registration, the credential exchange and the webhook *)

(** [!v] for a variable of [process.env]: unset, or the empty string. *)
Definition env_missing (v : option string) : bool :=
  match v with
  | Some s => s =? ""
  | None => true
  end.

(** The guard of [registerInboundRoutes] (lines 7-11): [None] when it
    raises "Missing ELEVENLABS_API_KEY or ELEVENLABS_AGENT_ID", otherwise
    the key and the identifier the routes close over. *)
Definition registerInboundRoutes
    (ELEVENLABS_API_KEY ELEVENLABS_AGENT_ID : option string)
  : option (string * string) :=
  if env_missing ELEVENLABS_API_KEY || env_missing ELEVENLABS_AGENT_ID
  then None
  else
    match ELEVENLABS_API_KEY, ELEVENLABS_AGENT_ID with
    | Some key, Some id => Some (key, id)
    | _, _ => None
    end.

(** What [fetch] resolves to, as far as [getSignedUrl] reads it: [text]
    and [json] are [None] when [res.text()] / [res.json()] reject. *)
Record response : Type := mkResponse {
  ok : bool;
  status : N;
  text : option string;
  json : option value
}.

(** How [getSignedUrl] can fail: with its own error, or with whatever
    [fetch], [res.text()], [res.json()] or the read of [json.signed_url]
    raised. *)
Inductive raised : Type :=
| Failed_to_get_signed_URL (message : string)
| Rejected.

(** [getSignedUrl] (lines 16-36), given what [fetch] did ([None] when it
    rejected). *)
Definition getSignedUrl (res : option response) : value + raised :=
  match res with
  | None => inr Rejected
  | Some res =>
      if negb (ok res) then
        match text res with
        | None => inr Rejected
        | Some body =>
            inr (Failed_to_get_signed_URL
                   ("Failed to get signed URL: "
                    ++ NilEmpty.string_of_uint (N.to_uint (status res))
                    ++ " " ++ body))
        end
      else
        match json res with
        | None => inr Rejected
        | Some j =>
            match prop j "signed_url" with
            | None => inr Rejected
            | Some signed_url => inl signed_url
            end
        end
  end.

(** The [/media-stream] handler from its first line: [getSignedUrl],
    then [new WebSocket(signedUrl)], which returns when [constructs] says
    so, then the listeners; any exception lands in the [catch] block. *)
Definition media_stream_handler
    (res : option response) (constructs : value -> bool)
    (connection_socket : bool) : setup :=
  match getSignedUrl res with
  | inl signedUrl =>
      media_stream (Some signedUrl) (constructs signedUrl) connection_socket
  | inr _ => media_stream None false connection_socket
  end.

(** The double quote and the line feed. *)
Definition dq : string := String "034" EmptyString.
Definition nl : string := String "010" EmptyString.

(** The characters [String.prototype.trim] removes, among the code
    units up to 255 (an HTTP header value has no others): tab, line feed,
    vertical tab, form feed, carriage return, space, no-break space. *)
Definition is_whitespace (c : ascii) : bool :=
  existsb (N.eqb (N_of_ascii c)) [9; 10; 11; 12; 13; 32; 160]%N.

Fixpoint trim_start (s : string) : string :=
  match s with
  | EmptyString => EmptyString
  | String c rest => if is_whitespace c then trim_start rest else s
  end.

Fixpoint trim_end (s : string) : string :=
  match s with
  | EmptyString => EmptyString
  | String c rest =>
      match trim_end rest with
      | EmptyString => if is_whitespace c then EmptyString else String c EmptyString
      | kept => String c kept
      end
  end.

Definition trim (s : string) : string := trim_end (trim_start s).

(** The template literal of the webhook (lines 43-49), before [.trim()].
    [host] is [req.headers.host]; a missing header prints as
    "undefined". *)
Definition twiml_template (host : option string) : string :=
  nl ++ "<?xml version=" ++ dq ++ "1.0" ++ dq ++ " encoding=" ++ dq ++ "UTF-8"
  ++ dq ++ "?>" ++ nl
  ++ "<Response>" ++ nl
  ++ "  <Connect>" ++ nl
  ++ "    <Stream url=" ++ dq ++ "wss://"
  ++ match host with Some h => h | None => "undefined" end
  ++ "/media-stream" ++ dq ++ " />" ++ nl
  ++ "  </Connect>" ++ nl
  ++ "</Response>".

Record reply : Type := mkReply {
  content_type : string;
  body : string
}.

(** [fastify.all("/incoming-call-eleven", ...)] (lines 41-52). *)
Definition incoming_call_eleven (host : option string) : reply :=
  mkReply "text/xml" (trim (twiml_template host)).

(** Reading the routing document the way its consumer does: the value of
    the [url] attribute of the [Stream] element runs from the quote that
    opens it to the next quote. *)
Fixpoint find_after (pattern s : string) : option string :=
  match Url.strip_prefix pattern s with
  | Some rest => Some rest
  | None =>
      match s with
      | EmptyString => None
      | String _ rest => find_after pattern rest
      end
  end.

Fixpoint until_quote (s : string) : string :=
  match s with
  | EmptyString => EmptyString
  | String c rest =>
      if (c =? "034")%char then EmptyString else String c (until_quote rest)
  end.

Definition stream_url (document : string) : option string :=
  option_map until_quote (find_after ("<Stream url=" ++ dq) document).

Definition not_quote (c : ascii) : bool := negb (c =? "034")%char.

(** ** Running the earlier revision *)

Definition rev0_moves_to (r : readyState) (s : Rev0.session) : Rev0.session :=
  Rev0.mkSession (Rev0.streamSid s)
                 (option_map (fun _ => r) (Rev0.elevenWs s)).

Definition rev0_step (s : Rev0.session) (e : event) : outcome Rev0.session :=
  match e with
  | Ev_elevenWs_open => Rev0.elevenWs_on_open (rev0_moves_to OPEN s)
  | Ev_elevenWs_message raw => Rev0.elevenWs_on_message raw s
  | Ev_elevenWs_close => Rev0.elevenWs_on_close (rev0_moves_to CLOSED s)
  | Ev_elevenWs_error => Rev0.elevenWs_on_error (rev0_moves_to CLOSING s)
  | Ev_connection_message raw => Rev0.connection_on_message raw s
  | Ev_connection_close => Rev0.connection_on_close s
  | Ev_connection_error => Rev0.connection_on_error s
  end.

Fixpoint rev0_run (s : Rev0.session) (evs : list event) : outcome Rev0.session :=
  match evs with
  | [] => Returns s []
  | e :: rest =>
      match rev0_step s e with
      | Returns s1 out1 =>
          match rev0_run s1 rest with
          | Returns s2 out2 => Returns s2 (out1 ++ out2)
          | Throws s2 out2 => Throws s2 (out1 ++ out2)
          end
      | Throws s1 out1 => Throws s1 out1
      end
  end.

(** The calls made on the caller's socket. *)
Definition caller_leg (out : list action) : list action :=
  filter (fun a => negb (on_elevenWs a)) out.

(** Two sessions, one of each revision, that the caller cannot tell
    apart: the same identifier on record, or none in either, and the agent
    socket present in both or in neither. *)
Definition same_for_caller (s : session) (s0 : Rev0.session) : Prop :=
  (streamSid s = Rev0.streamSid s0
   \/ (truthy (streamSid s) = false /\ truthy (Rev0.streamSid s0) = false))
  /\ (elevenWs s = None <-> Rev0.elevenWs s0 = None).

(** ** The session from the moment the caller connects *)

(** What can arrive on the caller's socket while [await getSignedUrl()]
    (line 92) is pending. *)
Inductive early_arrival : Type :=
| Early_message (raw : option value)
| Early_close.

(** The whole life of one [/media-stream] connection.  The listeners of
    [connection] are attached at lines 187-247, after the credential has
    been fetched: what arrives before ([early]) is emitted to no listener
    and leaves no mark on the variables; [evs] are the events delivered
    afterwards. *)
Definition media_stream_session
    (early : list early_arrival) (res : option response)
    (constructs : value -> bool) (connection_socket : bool)
    (evs : list event) : outcome session :=
  match media_stream_handler res constructs connection_socket with
  | Listening s => run s evs
  | Failed s out => Returns s out
  end.

(** A credential response the handler accepts. *)
Definition signed (url : string) : option response :=
  Some (mkResponse true 200 None (Some (VObj [("signed_url", VStr url)]))).

(** A caller "start" frame whose identifier the log line of the "start"
    branch cannot print. *)
Definition unprintable_start (e : event) : bool :=
  match e with
  | Ev_connection_message (Some data) =>
      is_string (opt_prop data "event") "start"
      && to_string_raises
           (or_else (opt_prop (opt_prop data "start") "streamSid") VNull)
  | _ => false
  end.

(** The events on which a listener raises. *)
Definition raising (e : event) : bool := null_frame e || unprintable_start e.

(** * Proofs *)

(** ** Basic facts *)

Ltac case_if :=
  match goal with
  | |- context [if ?b then _ else _] => destruct b eqn:?
  | |- context [match ?x with Some _ => _ | None => _ end] => destruct x eqn:?
  end.

(** What [tryStartConversation] can do: nothing, or fire the gate. *)
Lemma tryStartConversation_cases (s : session) :
  tryStartConversation s = (s, [])
  \/ (tryStartConversation s = (set_convoStarted true s, [Send_elevenWs start_frame])
      /\ convoStarted s = false
      /\ twilioStarted s = true
      /\ truthy (streamSid s) = true
      /\ elevenWs_is_open s = true
      /\ elevenOpen s = true).
Proof.
  unfold tryStartConversation.
  destruct (convoStarted s); [now left|].
  destruct (twilioStarted s); [|now left].
  destruct (truthy (streamSid s)); [|now left].
  destruct (elevenWs_is_open s); [|now left].
  destruct (elevenOpen s); [|now left].
  right. repeat split.
Qed.

Ltac bool_hyps :=
  repeat match goal with
         | H : negb _ = true |- _ => apply negb_true_iff in H
         | H : negb _ = false |- _ => apply negb_false_iff in H
         | H : _ || _ = false |- _ => apply orb_false_iff in H; destruct H
         | H : _ || _ = true |- _ => apply orb_true_iff in H; destruct H
         | H : _ && _ = false |- _ => apply andb_false_iff in H; destruct H
         | H : _ && _ = true |- _ => apply andb_true_iff in H; destruct H
         | H : Some _ = Some _ |- _ => inversion H; subst; clear H
         | H : (_, _) = (_, _) |- _ => inversion H; subst; clear H
         end.

Ltac unfold_listeners :=
  unfold elevenWs_on_open, elevenWs_on_message, elevenWs_on_close,
    elevenWs_on_error, connection_on_message, connection_on_close,
    connection_on_error, close_elevenWs_if_open in *.

Ltac gate_cases :=
  match goal with
  | |- context [tryStartConversation ?x] =>
      let E := fresh "E" in
      destruct (tryStartConversation_cases x) as [E|(E & ? & ? & ? & ? & ?)];
      rewrite E
  end.

Ltac listener_cases :=
  unfold_listeners;
  repeat (first [gate_cases | case_if]; simpl in *; try congruence).

Lemma is_string_eq (v : value) (lit : string) :
  is_string v lit = true -> v = VStr lit.
Proof.
  destruct v; simpl; try discriminate.
  intros H. apply String.eqb_eq in H. now subst.
Qed.

Lemma after_nil (o : outcome session) : after [] o = o.
Proof. now destruct o. Qed.

Lemma after_after (a b : list action) (o : outcome session) :
  after a (after b o) = after (a ++ b) o.
Proof. destruct o; simpl; now rewrite app_assoc. Qed.

Lemma run_app (s : session) (pre post : list event) :
  run s (pre ++ post) =
  match run s pre with
  | Returns s1 out1 => after out1 (run s1 post)
  | Throws s1 out1 => Throws s1 out1
  end.
Proof.
  revert s. induction pre as [|e pre IH]; intros s; simpl.
  - now rewrite after_nil.
  - destruct (step s e) as [s1 o1|s1 o1]; [|reflexivity].
    rewrite IH. destruct (run s1 pre) as [s2 o2|s2 o2]; simpl; [|reflexivity].
    now rewrite after_after.
Qed.

Lemma starts_app (a b : list action) : starts (a ++ b) = starts a + starts b.
Proof. unfold starts. now rewrite filter_app, length_app. Qed.



(** Each event adds to the start signals sent exactly what it adds to
    [convoStarted]. *)
Lemma step_starts (s : session) (e : event) :
  started s + starts (calls (step s e)) = started (final (step s e)).
Proof.
  destruct e; simpl; listener_cases;
    unfold started, starts; simpl; repeat (case_if; simpl in *; try congruence).
Qed.

Lemma run_starts (evs : list event) (s : session) :
  started s + starts (calls (run s evs)) = started (final (run s evs)).
Proof.
  revert s. induction evs as [|e evs IH]; intros s; simpl.
  - unfold starts; simpl; lia.
  - pose proof (step_starts s e) as Hs.
    destruct (step s e) as [s1 o1|s1 o1]; simpl in *; [|exact Hs].
    specialize (IH s1).
    destruct (run s1 evs) as [s2 o2|s2 o2]; simpl in *;
      rewrite starts_app; lia.
Qed.

(** Where the flags of the gate come from: one event can set
    [elevenOpen] only if it is an "open", can make [streamSid] truthy only
    if it is a "start" frame with an identifier, and can set
    [convoStarted] only with the whole gate condition in place. *)
Lemma truthy_or_else_null (a : value) :
  truthy (or_else a VNull) = truthy a.
Proof. unfold or_else. now destruct (truthy a) eqn:E. Qed.

Lemma prop_opt_prop (v : value) (k : string) (x : value) :
  prop v k = Some x -> opt_prop v k = x.
Proof. unfold opt_prop. now intros ->. Qed.

Lemma step_gate (s : session) (e : event) :
  let s' := final (step s e) in
  (elevenOpen s' = true -> elevenOpen s = true \/ is_open_event e = true)
  /\ (truthy (streamSid s') = true ->
      truthy (streamSid s) = true \/ start_with_sid e = true)
  /\ (convoStarted s' = true ->
      convoStarted s = true
      \/ (twilioStarted s' = true /\ truthy (streamSid s') = true
          /\ elevenWs_is_open s' = true /\ elevenOpen s' = true)).
Proof.
  destruct e; simpl.
  - unfold elevenWs_on_open. simpl.
    destruct (elevenWs s) as [w|]; simpl; [|tauto].
    gate_cases; simpl in *; unfold elevenWs_is_open in *; simpl in *;
      intuition congruence.
  - unfold elevenWs_on_message.
    repeat (case_if; simpl; try tauto).
  - tauto.
  - tauto.
  - unfold connection_on_message.
    destruct raw as [data|]; simpl; [|tauto].
    destruct (prop data "event") as [event|] eqn:He; simpl; [|tauto].
    rewrite (prop_opt_prop _ _ _ He).
    destruct (is_string event "start") eqn:Hs; simpl.
    + destruct (to_string_raises _); simpl;
        [rewrite ?truthy_or_else_null; intuition congruence|].
      gate_cases; simpl in *; rewrite ?truthy_or_else_null in *;
        intuition congruence.
    + unfold close_elevenWs_if_open.
      repeat (case_if; simpl; try tauto).
  - unfold connection_on_close, close_elevenWs_if_open.
    case_if; simpl; tauto.
  - unfold connection_on_error, close_elevenWs_if_open.
    case_if; simpl; tauto.
Qed.


Lemma final_after (out : list action) (o : outcome session) :
  final (after out o) = final o.
Proof. now destruct o. Qed.

Lemma calls_after (out : list action) (o : outcome session) :
  calls (after out o) = out ++ calls o.
Proof. now destruct o. Qed.

Lemma run_gate (evs : list event) (s : session) :
  let s' := final (run s evs) in
  (elevenOpen s' = true -> elevenOpen s = true \/ has_open evs = true)
  /\ (truthy (streamSid s') = true ->
      truthy (streamSid s) = true \/ has_start_with_sid evs = true)
  /\ (convoStarted s' = true ->
      convoStarted s = true
      \/ ((elevenOpen s = true \/ has_open evs = true)
          /\ (truthy (streamSid s) = true \/ has_start_with_sid evs = true))).
Proof.
  revert s. induction evs as [|e evs IH]; intros s; simpl.
  - auto.
  - pose proof (step_gate s e) as (Ho & Hs & Hc). simpl in Ho, Hs, Hc.
    unfold has_open, has_start_with_sid in *; simpl.
    rewrite !orb_true_iff.
    destruct (step s e) as [s1 o1|s1 o1]; simpl in *.
    + specialize (IH s1). destruct IH as (Io & Is & Ic).
      rewrite final_after.
      repeat split; intros H.
      * apply Io in H. tauto.
      * apply Is in H. tauto.
      * apply Ic in H. destruct H as [H|[H1 H2]]; [apply Hc in H|]; tauto.
    + repeat split; intros H.
      * apply Ho in H. tauto.
      * apply Hs in H. tauto.
      * apply Hc in H. tauto.
Qed.


Lemma tryStartConversation_settles (s : session) :
  (elevenWs_is_open s = true -> elevenOpen s = true) ->
  gate_settled (fst (tryStartConversation s)).
Proof.
  intros Ho. unfold gate_settled, tryStartConversation.
  repeat (case_if; simpl); bool_hyps; intuition congruence.
Qed.

Lemma close_elevenWs_if_open_settled (s : session) :
  gate_settled s -> gate_settled (fst (close_elevenWs_if_open s)).
Proof.
  unfold close_elevenWs_if_open. destruct (elevenWs_is_open s) eqn:E; simpl; auto.
  intros _. unfold gate_settled, elevenWs_is_open in *. simpl.
  destruct (elevenWs s) as [[]|]; simpl in *; split; intros; congruence.
Qed.

Lemma step_gate_settled (s : session) (e : event) :
  gate_settled s -> returned (step s e) = true ->
  gate_settled (final (step s e)).
Proof.
  intros Hs Hr. destruct e; simpl in *.
  - unfold elevenWs_on_open. simpl.
    destruct (elevenWs s) as [w|] eqn:Ew; simpl.
    + pose proof (tryStartConversation_settles
                    (set_elevenOpen true (ws_moves_to OPEN s))) as H.
      destruct (tryStartConversation _) as [s2 out]; simpl in *.
      apply H. reflexivity.
    + unfold gate_settled, elevenWs_is_open; simpl. rewrite Ew; simpl.
      split; intros; congruence.
  - unfold elevenWs_on_message.
    repeat (case_if; simpl; try assumption).
  - unfold gate_settled, elevenWs_is_open. simpl.
    destruct (elevenWs s); simpl; split; intros; congruence.
  - unfold gate_settled, elevenWs_is_open. simpl.
    destruct (elevenWs s); simpl; split; intros; congruence.
  - unfold connection_on_message in *.
    destruct raw as [data|]; simpl in *; [|assumption].
    destruct (prop data "event") as [event|] eqn:He; simpl in *; [|assumption].
    destruct (is_string event "start") eqn:Hst; simpl in *.
    + destruct (to_string_raises _); [discriminate|].
      match goal with
      | |- context [tryStartConversation ?x] =>
          pose proof (tryStartConversation_settles x) as H;
          destruct (tryStartConversation x) as [s2 out]
      end.
      simpl in *. apply H. apply Hs.
    + match goal with
      | |- context [if is_string event "media" then ?a else ?b] =>
          assert (Hm : gate_settled (fst (if is_string event "media" then a else b)))
      end.
      { repeat (case_if; simpl; try assumption). }
      destruct (if is_string event "media" then _ else _) as [s1 out1].
      simpl in Hm.
      destruct (is_string event "stop"); simpl; [|assumption].
      pose proof (close_elevenWs_if_open_settled s1 Hm) as Hc.
      now destruct (close_elevenWs_if_open s1).
  - unfold connection_on_close.
    pose proof (close_elevenWs_if_open_settled s Hs) as Hc.
    now destruct (close_elevenWs_if_open s).
  - unfold connection_on_error.
    pose proof (close_elevenWs_if_open_settled s Hs) as Hc.
    now destruct (close_elevenWs_if_open s).
Qed.

Lemma returned_after (out : list action) (o : outcome session) :
  returned (after out o) = returned o.
Proof. now destruct o. Qed.

Lemma run_gate_settled (evs : list event) (s : session) :
  gate_settled s -> returned (run s evs) = true ->
  gate_settled (final (run s evs)).
Proof.
  revert s. induction evs as [|e evs IH]; intros s Hs Hr; simpl in *;
    [exact Hs|].
  pose proof (step_gate_settled s e Hs) as H1.
  destruct (step s e) as [s1 o1|s1 o1]; simpl in *; [|discriminate].
  rewrite returned_after in Hr. rewrite final_after. apply IH; auto.
Qed.

Lemma init_gate_settled : gate_settled init.
Proof. split; cbv; intros; congruence. Qed.

(** ** The listeners, frame by frame *)

Lemma opt_prop_is_string (v : value) (k lit : string) :
  is_string (opt_prop v k) lit = true -> prop v k = Some (VStr lit).
Proof.
  unfold opt_prop. destruct (prop v k) as [x|]; simpl; [|discriminate].
  intros H. now rewrite (is_string_eq _ _ H).
Qed.

(** A caller frame with [event === "start"]. *)
Lemma connection_on_message_start (data : value) (s : session) :
  is_string (opt_prop data "event") "start" = true ->
  connection_on_message (Some data) s =
  let sid := or_else (opt_prop (opt_prop data "start") "streamSid") VNull in
  let s2 := set_twilioStarted true (set_streamSid sid s) in
  if to_string_raises sid then Throws s2 []
  else let '(s', out) := tryStartConversation s2 in Returns s' out.
Proof.
  intros H. apply opt_prop_is_string in H.
  unfold connection_on_message. now rewrite H.
Qed.

(** A caller frame with [event === "media"]. *)
Lemma connection_on_message_media (data : value) (s : session) :
  is_string (opt_prop data "event") "media" = true ->
  connection_on_message (Some data) s =
  let payload := opt_prop (opt_prop data "media") "payload" in
  if elevenWs_is_open s && truthy payload
  then Returns (incr_twilioInboundFrames s)
         [Send_elevenWs (user_audio_chunk_frame payload)]
  else Returns s [].
Proof.
  intros H. apply opt_prop_is_string in H.
  unfold connection_on_message. rewrite H. simpl.
  now destruct (elevenWs_is_open s && truthy _).
Qed.

(** A caller frame with [event === "stop"]. *)
Lemma connection_on_message_stop (data : value) (s : session) :
  is_string (opt_prop data "event") "stop" = true ->
  connection_on_message (Some data) s =
  let '(s', out) := close_elevenWs_if_open s in Returns s' out.
Proof.
  intros H. apply opt_prop_is_string in H.
  unfold connection_on_message. rewrite H. simpl.
  now destruct (close_elevenWs_if_open s).
Qed.

(** An agent frame with [type === "audio"]. *)
Lemma elevenWs_on_message_audio (msg : value) (s : session) :
  is_string (opt_prop msg "type") "audio" = true ->
  elevenWs_on_message (Some msg) s =
  let audio_base_64 := opt_prop (opt_prop msg "audio_event") "audio_base_64" in
  if truthy audio_base_64 && truthy (streamSid s)
  then Returns (incr_twilioOutboundFrames s)
         [Send_connection (twilioFrame (streamSid s) audio_base_64)]
  else Returns s [].
Proof.
  intros H. apply opt_prop_is_string in H.
  unfold elevenWs_on_message. rewrite H. simpl.
  destruct (truthy (opt_prop _ "audio_base_64")); simpl; [|reflexivity].
  now destruct (truthy (streamSid s)).
Qed.

(** An agent frame with [type === "interruption"]. *)
Lemma elevenWs_on_message_interruption (msg : value) (s : session) :
  is_string (opt_prop msg "type") "interruption" = true ->
  elevenWs_on_message (Some msg) s =
  if truthy (streamSid s)
  then Returns s [Send_connection (clear_frame (streamSid s))]
  else Returns s [].
Proof.
  intros H. apply opt_prop_is_string in H.
  unfold elevenWs_on_message. rewrite H. simpl.
  now destruct (truthy (streamSid s)).
Qed.

(** ** The conversation gate *)

Lemma gate_start_then_open (data : value) :
  is_string (opt_prop data "event") "start" = true ->
  truthy (opt_prop (opt_prop data "start") "streamSid") = true ->
  to_string_raises (opt_prop (opt_prop data "start") "streamSid") = false ->
  run init [Ev_connection_message (Some data)] =
    Returns (mkSession (opt_prop (opt_prop data "start") "streamSid")
               (Some CONNECTING) true false false 0 0) []
  /\ run init [Ev_connection_message (Some data); Ev_elevenWs_open] =
    Returns (mkSession (opt_prop (opt_prop data "start") "streamSid")
               (Some OPEN) true true true 0 0)
      [Send_elevenWs conversation_config_frame; Send_elevenWs start_frame].
Proof.
  intros He Hsid Hp. cbn [run step].
  rewrite (connection_on_message_start _ _ He).
  unfold or_else. rewrite Hsid. cbv zeta. rewrite Hp.
  unfold tryStartConversation, elevenWs_on_open. simpl.
  rewrite Hsid. simpl. unfold tryStartConversation. simpl.
  rewrite Hsid. simpl. split; reflexivity.
Qed.

Lemma gate_open_then_start (data : value) :
  is_string (opt_prop data "event") "start" = true ->
  truthy (opt_prop (opt_prop data "start") "streamSid") = true ->
  to_string_raises (opt_prop (opt_prop data "start") "streamSid") = false ->
  run init [Ev_elevenWs_open] =
    Returns (mkSession VNull (Some OPEN) false true false 0 0)
      [Send_elevenWs conversation_config_frame]
  /\ run init [Ev_elevenWs_open; Ev_connection_message (Some data)] =
    Returns (mkSession (opt_prop (opt_prop data "start") "streamSid")
               (Some OPEN) true true true 0 0)
      [Send_elevenWs conversation_config_frame; Send_elevenWs start_frame].
Proof.
  intros He Hsid Hp. cbn [run step]. split; [reflexivity|].
  replace (elevenWs_on_open (ws_moves_to OPEN init))
    with (Returns (mkSession VNull (Some OPEN) false true false 0 0)
            [Send_elevenWs conversation_config_frame]) by reflexivity.
  cbn [run step after].
  rewrite (connection_on_message_start _ _ He).
  unfold or_else. rewrite Hsid. cbv zeta. rewrite Hp.
  unfold tryStartConversation. simpl. rewrite Hsid. reflexivity.
Qed.

Lemma starts_at_most_once (evs : list event) :
  starts (calls (run init evs)) <= 1.
Proof.
  pose proof (run_starts evs init) as H. unfold started in H. simpl in H.
  destruct (convoStarted (final (run init evs))); lia.
Qed.

Lemma start_only_after_both (evs : list event) :
  1 <= starts (calls (run init evs)) ->
  has_open evs = true /\ has_start_with_sid evs = true.
Proof.
  intros H1.
  pose proof (run_starts evs init) as H. unfold started in H. simpl in H.
  destruct (convoStarted (final (run init evs))) eqn:Hc; [|lia].
  destruct (run_gate evs init) as (_ & _ & Hg). simpl in Hg.
  destruct (Hg Hc) as [Hf|[[Hf|Ho] [Hf'|Hs]]]; try discriminate.
  now split.
Qed.

Lemma start_sent_once_gate_open (evs : list event) :
  returned (run init evs) = true ->
  let s := final (run init evs) in
  twilioStarted s = true -> truthy (streamSid s) = true ->
  elevenWs_is_open s = true ->
  starts (calls (run init evs)) = 1.
Proof.
  intros Hr s Ht Hsid Ho.
  destruct (run_gate_settled evs init init_gate_settled Hr) as [_ Hg].
  pose proof (run_starts evs init) as H. unfold started in H. simpl in H.
  fold s in Hg, H. rewrite (Hg Ht Hsid Ho) in H. lia.
Qed.

Lemma tryStartConversation_idempotent (s : session) :
  convoStarted s = true -> tryStartConversation s = (s, []).
Proof. unfold tryStartConversation. now intros ->. Qed.

Lemma no_start_without_sid (evs : list event) (s : session) :
  truthy (streamSid s) = false ->
  has_start_with_sid evs = false ->
  starts (calls (run s evs)) = 0.
Proof.
  intros Hsid Hev. pose proof (run_starts evs s) as Hs.
  destruct (run_gate evs s) as (_ & _ & Hg). simpl in Hg.
  unfold started in Hs.
  destruct (convoStarted (final (run s evs))); [|destruct (convoStarted s); lia].
  destruct (convoStarted s); [lia|].
  destruct (Hg eq_refl) as [Hf|[_ [Hf|Hf]]]; congruence.
Qed.

(** Once the listeners are attached, whichever of the caller "start"
    frame (carrying an identifier that the log line can print) and the
    agent socket's "open" comes first, nothing is sent by the first alone
    and the second makes the bridge send [{type:"start"}], once, after the
    configuration frame.  In every run the start signal is sent at most
    once; it is sent only when both an "open" and a "start" frame with an
    identifier have been delivered; in a run no listener has cut short it
    has been sent exactly once whenever the session has the caller
    started, the identifier known and the agent socket open; and
    [tryStartConversation] does nothing once [convoStarted] is set. *)
Theorem gate_fires_exactly_once_once_attached :
  (forall data : value,
      is_string (opt_prop data "event") "start" = true ->
      truthy (opt_prop (opt_prop data "start") "streamSid") = true ->
      to_string_raises (opt_prop (opt_prop data "start") "streamSid") = false ->
      let caller_start_event := Ev_connection_message (Some data) in
      let both :=
        Returns (mkSession (opt_prop (opt_prop data "start") "streamSid")
                   (Some OPEN) true true true 0 0)
          [Send_elevenWs conversation_config_frame; Send_elevenWs start_frame] in
      starts (calls (run init [caller_start_event])) = 0
      /\ starts (calls (run init [Ev_elevenWs_open])) = 0
      /\ run init [caller_start_event; Ev_elevenWs_open] = both
      /\ run init [Ev_elevenWs_open; caller_start_event] = both)
  /\ (forall evs : list event, starts (calls (run init evs)) <= 1)
  /\ (forall evs : list event,
         1 <= starts (calls (run init evs)) ->
         has_open evs = true /\ has_start_with_sid evs = true)
  /\ (forall evs : list event,
         returned (run init evs) = true ->
         let s := final (run init evs) in
         twilioStarted s = true -> truthy (streamSid s) = true ->
         elevenWs_is_open s = true ->
         starts (calls (run init evs)) = 1)
  /\ (forall s : session,
         convoStarted s = true -> tryStartConversation s = (s, [])).
Proof.
  split; [|split; [|split; [|split]]].
  - intros data He Hsid Hp.
    destruct (gate_start_then_open data He Hsid Hp) as [H1 H2].
    destruct (gate_open_then_start data He Hsid Hp) as [H3 H4].
    cbv zeta. rewrite H1, H3, H2, H4. repeat split.
  - exact starts_at_most_once.
  - exact start_only_after_both.
  - exact start_sent_once_gate_open.
  - exact tryStartConversation_idempotent.
Qed.

Lemma gate_fires_exactly_once_once_attached_witness :
  let data := caller_start (VStr "CA123") in
  let evs := [Ev_elevenWs_open; Ev_connection_message (Some data)] in
  let fired := mkSession (VStr "CA123") (Some OPEN) true true true 0 0 in
  (run init [Ev_connection_message (Some data); Ev_elevenWs_open] = run init evs)
  /\ (has_open evs = true /\ has_start_with_sid evs = true)
  /\ starts (calls (run init evs)) = 1
  /\ tryStartConversation fired = (fired, []).
Proof.
  destruct gate_fires_exactly_once_once_attached as (H1 & _ & H3 & H4 & H5).
  destruct (H1 (caller_start (VStr "CA123")) eq_refl eq_refl eq_refl)
    as (_ & _ & Ha & Hb).
  cbv zeta. split; [|split; [|split]].
  - now rewrite Ha, Hb.
  - apply H3. vm_compute. lia.
  - apply (H4 [Ev_elevenWs_open;
               Ev_connection_message (Some (caller_start (VStr "CA123")))]);
      reflexivity.
  - apply H5. reflexivity.
Defined.

Lemma media_stream_session_listening
      (early : list early_arrival) (url : string) (cs : bool) (evs : list event) :
  media_stream_session early (signed url) (fun _ => true) cs evs = run init evs.
Proof. reflexivity. Qed.

Lemma media_stream_session_starts
      (early : list early_arrival) (res : option response)
      (constructs : value -> bool) (cs : bool) (evs : list event) :
  has_start_with_sid evs = false ->
  starts (calls (media_stream_session early res constructs cs evs)) = 0.
Proof.
  intros Hev. unfold media_stream_session, media_stream_handler.
  destruct (getSignedUrl res) as [u|]; unfold media_stream.
  - destruct (constructs u).
    + now apply no_start_without_sid.
    + simpl. now destruct cs.
  - simpl. now destruct cs.
Qed.

(** C1.  The code at the inputs where it breaks the claim.  A caller
    "start" frame that arrives while the credential is being fetched
    finds no listener and is lost: whatever follows, short of another
    "start" frame with an identifier, the start signal is never sent, and
    after the agent socket has opened only the configuration frame has
    gone out, with the caller not recorded as started.  And a "start"
    frame whose identifier has no string conversion makes the listener
    raise at its log line, after recording the identifier and before the
    gate is evaluated: with the agent socket open, no start signal is
    sent. *)
Theorem C1_start_frame_during_fetch_is_lost :
  (forall (sid : value) (res : option response) (constructs : value -> bool)
          (connection_socket : bool) (evs : list event),
      has_start_with_sid evs = false ->
      starts (calls (media_stream_session
                       [Early_message (Some (caller_start sid))]
                       res constructs connection_socket evs)) = 0)
  /\ media_stream_session
       [Early_message (Some (caller_start (VStr "CA123")))]
       (signed "wss://api.elevenlabs.io/convai") (fun _ => true) true
       [Ev_elevenWs_open]
     = Returns (mkSession VNull (Some OPEN) false true false 0 0)
         [Send_elevenWs conversation_config_frame]
  /\ run init
       [Ev_elevenWs_open;
        Ev_connection_message
          (Some (caller_start (VObj [("toString", VNum 0)])))]
     = Throws (mkSession (VObj [("toString", VNum 0)]) (Some OPEN)
                 true true false 0 0)
         [Send_elevenWs conversation_config_frame].
Proof.
  split; [|split; reflexivity].
  intros sid res constructs cs evs Hev.
  now apply media_stream_session_starts.
Qed.

Lemma C1_start_frame_during_fetch_is_lost_witness :
  starts (calls (media_stream_session
                   [Early_message (Some (caller_start (VStr "CA123")))]
                   (signed "wss://api.elevenlabs.io/convai") (fun _ => true)
                   true
                   [Ev_elevenWs_open;
                    Ev_connection_message (Some (caller_media (VStr "AAAA")))]))
  = 0.
Proof.
  apply (proj1 C1_start_frame_during_fetch_is_lost). reflexivity.
Defined.

(** ** Agent audio and interruption frames *)

(** C2.  An agent frame with [type === "audio"] and a truthy
    [audio_event.audio_base_64], received while [streamSid] is known,
    makes the bridge send the caller leg one frame, the envelope
    [{event:"media", streamSid, media:{payload}}] whose [streamSid] is the
    recorded one and whose payload is the very value of
    [audio_base_64]; nothing goes to the agent leg.  In the documented
    scenario, "QUJD" after stream "CA123" gives
    [{event:"media", streamSid:"CA123", media:{payload:"QUJD"}}]. *)
Theorem C2_audio_repackaged_payload_unchanged :
  forall (msg : value) (s : session),
    is_string (opt_prop msg "type") "audio" = true ->
    truthy (opt_prop (opt_prop msg "audio_event") "audio_base_64") = true ->
    truthy (streamSid s) = true ->
    let payload := opt_prop (opt_prop msg "audio_event") "audio_base_64" in
    let envelope :=
      VObj [("event", VStr "media");
            ("streamSid", streamSid s);
            ("media", VObj [("payload", payload)])] in
    step s (Ev_elevenWs_message (Some msg)) =
      Returns (incr_twilioOutboundFrames s) [Send_connection envelope]
    /\ opt_prop (opt_prop envelope "media") "payload" = payload
    /\ opt_prop envelope "streamSid" = streamSid s
    /\ calls (run init [Ev_connection_message (Some (caller_start (VStr "CA123")));
                        Ev_elevenWs_message (Some (agent_audio (VStr "QUJD")))])
       = [Send_connection
            (VObj [("event", VStr "media");
                   ("streamSid", VStr "CA123");
                   ("media", VObj [("payload", VStr "QUJD")])])].
Proof.
  intros msg s Ht Hp Hs. cbv zeta. cbn [step].
  rewrite (elevenWs_on_message_audio _ _ Ht). cbv zeta.
  rewrite Hp, Hs. repeat split.
Qed.

Lemma C2_audio_repackaged_payload_unchanged_witness :
  step (mkSession (VStr "CA123") (Some OPEN) true true true 0 0)
       (Ev_elevenWs_message (Some (agent_audio (VStr "QUJD")))) =
  Returns (mkSession (VStr "CA123") (Some OPEN) true true true 0 1)
    [Send_connection (twilioFrame (VStr "CA123") (VStr "QUJD"))].
Proof.
  exact (proj1 (C2_audio_repackaged_payload_unchanged
                  (agent_audio (VStr "QUJD"))
                  (mkSession (VStr "CA123") (Some OPEN) true true true 0 0)
                  eq_refl eq_refl eq_refl)).
Defined.


Lemma step_carries_streamSid (s : session) (e : event) :
  forallb carries_streamSid (calls (step s e)) = true.
Proof.
  destruct e; simpl; try reflexivity.
  - unfold elevenWs_on_open.
    destruct (elevenWs _); simpl; [|reflexivity].
    gate_cases; reflexivity.
  - unfold elevenWs_on_message.
    repeat (case_if; simpl; try reflexivity); bool_hyps;
      unfold opt_prop; simpl;
      repeat match goal with H : truthy _ = true |- _ => rewrite H end;
      reflexivity.
  - unfold connection_on_message, close_elevenWs_if_open.
    repeat (first [gate_cases | case_if]; simpl; try reflexivity).
  - unfold connection_on_close, close_elevenWs_if_open. now case_if.
  - unfold connection_on_error, close_elevenWs_if_open. now case_if.
Qed.

Lemma run_carries_streamSid (evs : list event) (s : session) :
  forallb carries_streamSid (calls (run s evs)) = true.
Proof.
  revert s. induction evs as [|e evs IH]; intros s; simpl; [reflexivity|].
  pose proof (step_carries_streamSid s e) as H.
  destruct (step s e) as [s1 o1|s1 o1]; simpl in *; [|exact H].
  rewrite calls_after, forallb_app, H. apply IH.
Qed.

(** An agent "audio" frame received while [streamSid] is not known
    (falsy: [null], [undefined] or the empty string) is dropped: nothing
    is sent and the session is unchanged.  In every run, from any session,
    every frame handed to [connection.send] has a truthy [streamSid]
    value: not [undefined], not [null], not the empty string. *)
Theorem audio_dropped_without_streamSid :
  (forall (msg : value) (s : session),
      is_string (opt_prop msg "type") "audio" = true ->
      truthy (streamSid s) = false ->
      step s (Ev_elevenWs_message (Some msg)) = Returns s [])
  /\ (forall (s : session) (evs : list event) (v : value),
         In (Send_connection v) (calls (run s evs)) ->
         truthy (opt_prop v "streamSid") = true
         /\ opt_prop v "streamSid" <> VUndefined
         /\ opt_prop v "streamSid" <> VNull
         /\ opt_prop v "streamSid" <> VStr "").
Proof.
  split.
  - intros msg s Ht Hs. cbn [step].
    rewrite (elevenWs_on_message_audio _ _ Ht). cbv zeta.
    now rewrite Hs, andb_false_r.
  - intros s evs v Hin.
    pose proof (run_carries_streamSid evs s) as H.
    rewrite forallb_forall in H. specialize (H _ Hin). simpl in H.
    repeat split; [exact H| | |]; intros E; rewrite E in H; discriminate.
Qed.

Lemma audio_dropped_without_streamSid_witness :
  step init (Ev_elevenWs_message (Some (agent_audio (VStr "QUJD")))) =
    Returns init []
  /\ truthy (opt_prop (twilioFrame (VStr "CA123") (VStr "QUJD")) "streamSid") = true.
Proof.
  destruct audio_dropped_without_streamSid as [H1 H2]. split.
  - apply H1; reflexivity.
  - apply (H2 init
             [Ev_connection_message (Some (caller_start (VStr "CA123")));
              Ev_elevenWs_message (Some (agent_audio (VStr "QUJD")))]).
    simpl. left. reflexivity.
Defined.

(** C6.  The code at the input where it breaks the claim.  A caller
    "start" frame whose identifier is the JSON number [1e999] parses to
    [Infinity], which is truthy: it is recorded, the gate fires when the
    agent socket opens, and the next agent "audio" frame is forwarded with
    it.  [JSON.stringify] writes [Infinity] as [null]: the envelope the
    caller receives is
    [{event:"media", streamSid:null, media:{payload:"QUJD"}}]. *)
Theorem C6_infinite_identifier_is_sent_as_null :
  run init [Ev_connection_message (Some (caller_start (VInf false)));
            Ev_elevenWs_open;
            Ev_elevenWs_message (Some (agent_audio (VStr "QUJD")))]
  = Returns (mkSession (VInf false) (Some OPEN) true true true 0 1)
      [Send_elevenWs conversation_config_frame;
       Send_elevenWs start_frame;
       Send_connection (twilioFrame (VInf false) (VStr "QUJD"))]
  /\ on_wire (twilioFrame (VInf false) (VStr "QUJD"))
     = VObj [("event", VStr "media");
             ("streamSid", VNull);
             ("media", VObj [("payload", VStr "QUJD")])].
Proof. split; reflexivity. Qed.

(** C7.  An agent frame with [type === "interruption"] received while
    [streamSid] is known makes the bridge send the caller leg exactly one
    frame, [{event:"clear", streamSid}] with the recorded identifier, and
    changes nothing else; received while [streamSid] is not known it
    produces no frame at all. *)
Theorem C7_interruption_clears_once :
  forall (msg : value) (s : session),
    is_string (opt_prop msg "type") "interruption" = true ->
    (truthy (streamSid s) = true ->
     step s (Ev_elevenWs_message (Some msg)) =
       Returns s [Send_connection
                    (VObj [("event", VStr "clear"); ("streamSid", streamSid s)])])
    /\ (truthy (streamSid s) = false ->
        step s (Ev_elevenWs_message (Some msg)) = Returns s []).
Proof.
  intros msg s Ht. cbn [step].
  rewrite (elevenWs_on_message_interruption _ _ Ht).
  split; intros ->; reflexivity.
Qed.

Lemma C7_interruption_clears_once_witness :
  step (mkSession (VStr "CA123") (Some OPEN) true true true 0 0)
       (Ev_elevenWs_message (Some agent_interruption)) =
    Returns (mkSession (VStr "CA123") (Some OPEN) true true true 0 0)
      [Send_connection (clear_frame (VStr "CA123"))]
  /\ step init (Ev_elevenWs_message (Some agent_interruption)) = Returns init [].
Proof.
  split.
  - apply (C7_interruption_clears_once agent_interruption
             (mkSession (VStr "CA123") (Some OPEN) true true true 0 0) eq_refl).
    reflexivity.
  - apply (C7_interruption_clears_once agent_interruption init eq_refl).
    reflexivity.
Defined.

(** ** Caller media frames *)

Lemma run_throws_app (s : session) (pre post : list event) :
  returned (run s pre) = false -> run s (pre ++ post) = run s pre.
Proof.
  intros H. rewrite run_app. now destruct (run s pre).
Qed.

(** Dropping leaves no trace: a run with the frame and the run without
    it are the same run. *)
Lemma dropped_media_never_forwarded
      (s : session) (pre post : list event) (data : value) :
  is_string (opt_prop data "event") "media" = true ->
  elevenWs_is_open (final (run s pre)) = false ->
  run s (pre ++ Ev_connection_message (Some data) :: post) = run s (pre ++ post).
Proof.
  intros Hm Hc. rewrite !run_app.
  destruct (run s pre) as [s1 o1|s1 o1]; [|reflexivity].
  simpl in Hc. cbn [run step].
  rewrite (connection_on_message_media _ _ Hm). cbv zeta.
  rewrite Hc. simpl. now rewrite after_nil.
Qed.

(** C5.  A caller frame with [event === "media"] that arrives while the
    agent socket is not open is dropped: nothing is sent, the session is
    unchanged, and whatever events follow, the run is the run without
    that frame, so its payload is never sent later.  While the agent
    socket is open, a media frame with a truthy payload is forwarded at
    once as [{user_audio_chunk: payload}], in any state of the gate flags. *)
Theorem C5_caller_media_dropped_or_forwarded :
  forall (data : value),
    is_string (opt_prop data "event") "media" = true ->
    (forall s : session,
        elevenWs_is_open s = false ->
        step s (Ev_connection_message (Some data)) = Returns s [])
    /\ (forall (s : session) (pre post : list event),
           elevenWs_is_open (final (run s pre)) = false ->
           run s (pre ++ Ev_connection_message (Some data) :: post)
           = run s (pre ++ post))
    /\ (forall s : session,
           elevenWs_is_open s = true ->
           truthy (opt_prop (opt_prop data "media") "payload") = true ->
           step s (Ev_connection_message (Some data)) =
             Returns (incr_twilioInboundFrames s)
               [Send_elevenWs
                  (VObj [("user_audio_chunk",
                          opt_prop (opt_prop data "media") "payload")])]).
Proof.
  intros data Hm. split; [|split].
  - intros s Hc. cbn [step].
    rewrite (connection_on_message_media _ _ Hm). cbv zeta. now rewrite Hc.
  - intros s pre post Hc. now apply dropped_media_never_forwarded.
  - intros s Ho Hp. cbn [step].
    rewrite (connection_on_message_media _ _ Hm). cbv zeta.
    now rewrite Ho, Hp.
Qed.

Lemma C5_caller_media_dropped_or_forwarded_witness :
  let early := Ev_connection_message (Some (caller_media (VStr "AAAA"))) in
  step init early = Returns init []
  /\ run init ([] ++ early :: [Ev_elevenWs_open]) = run init ([] ++ [Ev_elevenWs_open])
  /\ step (mkSession VNull (Some OPEN) false true false 0 0) early =
     Returns (mkSession VNull (Some OPEN) false true false 1 0)
       [Send_elevenWs (user_audio_chunk_frame (VStr "AAAA"))].
Proof.
  destruct (C5_caller_media_dropped_or_forwarded
              (caller_media (VStr "AAAA")) eq_refl) as (H1 & H2 & H3).
  cbv zeta. split; [|split].
  - apply H1. reflexivity.
  - apply (H2 init [] [Ev_elevenWs_open]). reflexivity.
  - apply (H3 (mkSession VNull (Some OPEN) false true false 0 0)); reflexivity.
Defined.

(** ** The configuration frame *)


Lemma elevenWs_on_open_config (s : session) :
  elevenWs s <> None ->
  exists (s' : session) (rest : list action),
    elevenWs_on_open s =
      Returns s' (Send_elevenWs conversation_config_frame :: rest)
    /\ (rest = [] \/ rest = [Send_elevenWs start_frame]).
Proof.
  intros Hw. unfold elevenWs_on_open. simpl.
  destruct (elevenWs s) as [w|]; [|congruence].
  gate_cases; eauto.
Qed.

(** While the agent socket is not open, only its "open" event makes the
    bridge call it or leaves it open. *)
Lemma step_quiet_until_open (s : session) (e : event) :
  elevenWs_is_open s = false -> is_open_event e = false ->
  agent_leg (calls (step s e)) = []
  /\ elevenWs_is_open (final (step s e)) = false.
Proof.
  intros Hc He. destruct e; simpl in *; try discriminate.
  - unfold elevenWs_on_message.
    repeat (case_if; simpl; auto).
  - split; [reflexivity|].
    unfold elevenWs_is_open, ws_moves_to. simpl. now destruct (elevenWs s).
  - split; [reflexivity|].
    unfold elevenWs_is_open, ws_moves_to. simpl. now destruct (elevenWs s).
  - unfold connection_on_message, close_elevenWs_if_open.
    rewrite Hc. simpl.
    repeat (first [gate_cases | case_if]; simpl; auto; try congruence).
    unfold elevenWs_is_open in *; simpl in *; congruence.
  - unfold connection_on_close, close_elevenWs_if_open. now rewrite Hc.
  - unfold connection_on_error, close_elevenWs_if_open. now rewrite Hc.
Qed.

Lemma agent_leg_app (a b : list action) :
  agent_leg (a ++ b) = agent_leg a ++ agent_leg b.
Proof. apply filter_app. Qed.

Lemma run_config_first (evs : list event) (s : session) :
  elevenWs s <> None -> elevenWs_is_open s = false ->
  config_first (calls (run s evs)).
Proof.
  revert s. induction evs as [|e evs IH]; intros s Hw Hc; [exact I|].
  cbn [run]. destruct (is_open_event e) eqn:He.
  - destruct e; try discriminate. cbn [step].
    assert (Hw' : elevenWs (ws_moves_to OPEN s) <> None).
    { simpl. now destruct (elevenWs s). }
    destruct (elevenWs_on_open_config _ Hw') as (s' & rest & -> & _).
    unfold config_first. now rewrite calls_after.
  - destruct (step_quiet_until_open s e Hc He) as [Hq Hc'].
    assert (Hw1 : elevenWs (final (step s e)) <> None \/
                  returned (step s e) = false).
    { destruct e; simpl in *; try discriminate;
        unfold_listeners; unfold ws_moves_to;
        repeat (first [gate_cases | case_if]; simpl; auto; try congruence);
        left; destruct (elevenWs s); simpl; congruence. }
    destruct (step s e) as [s1 o1|s1 o1]; simpl in *.
    + destruct Hw1 as [Hw1|]; [|discriminate].
      unfold config_first. rewrite calls_after, agent_leg_app, Hq. simpl.
      now apply IH.
    + unfold config_first. now rewrite Hq.
Qed.

(** C8.  The "open" listener of the agent socket sends the frame
    [{type:"conversation_config", conversation_config:{audio:{output:
    {encoding:"mulaw", sample_rate:8000}}}}] first, and after it at most
    the start signal.  In every run from the initial session, the first
    call made on the agent socket is that configuration frame: no start
    signal and no audio chunk precedes it. *)
Theorem C8_config_frame_on_open_first :
  (forall s : session,
      elevenWs s <> None ->
      exists (s' : session) (rest : list action),
        step s Ev_elevenWs_open =
          Returns s'
            (Send_elevenWs
               (VObj [("type", VStr "conversation_config");
                      ("conversation_config",
                       VObj [("audio",
                              VObj [("output",
                                     VObj [("encoding", VStr "mulaw");
                                           ("sample_rate", VNum 8000)])])])])
               :: rest)
        /\ (rest = [] \/ rest = [Send_elevenWs start_frame]))
  /\ (forall evs : list event,
         match filter on_elevenWs (calls (run init evs)) with
         | [] => True
         | a :: _ => a = Send_elevenWs conversation_config_frame
         end).
Proof.
  split.
  - intros s Hw. cbn [step]. apply elevenWs_on_open_config.
    simpl. now destruct (elevenWs s).
  - intros evs. apply (run_config_first evs init); [discriminate|reflexivity].
Qed.

Lemma C8_config_frame_on_open_first_witness :
  exists (s' : session) (rest : list action),
    step init Ev_elevenWs_open =
      Returns s' (Send_elevenWs conversation_config_frame :: rest)
    /\ (rest = [] \/ rest = [Send_elevenWs start_frame]).
Proof.
  apply (proj1 C8_config_frame_on_open_first init). discriminate.
Defined.

(** ** Malformed frames *)

(** Both message listeners return on every frame that parses to anything
    but [null]: every property is read off a value known not to be
    [null] or [undefined], or with [?.].  The one exception is the log
    line of the caller's "start" branch, which raises on an identifier it
    cannot print. *)
Lemma message_listeners_return (data : value) (s : session) :
  nullish data = false ->
  (unprintable_start (Ev_connection_message (Some data)) = false ->
   returned (step s (Ev_connection_message (Some data))) = true)
  /\ returned (step s (Ev_elevenWs_message (Some data))) = true.
Proof.
  intros Hn. cbn [step]. split.
  - intros Hp. unfold connection_on_message, close_elevenWs_if_open.
    destruct (prop data "event") as [event|] eqn:He;
      [|destruct data; discriminate].
    simpl in Hp. rewrite (prop_opt_prop _ _ _ He) in Hp.
    destruct (is_string event "start"); simpl in Hp.
    + cbn [streamSid set_twilioStarted set_streamSid]. rewrite Hp.
      now gate_cases.
    + repeat (case_if; simpl; try reflexivity).
  - unfold elevenWs_on_message.
    destruct data; try discriminate; simpl;
      repeat (case_if; simpl; try reflexivity); reflexivity.
Qed.

(** The frame [null] is valid JSON; reading [data.event] or [msg.type]
    off it raises. *)
Lemma null_frame_throws (s : session) :
  step s (Ev_connection_message (Some VNull)) = Throws s []
  /\ step s (Ev_elevenWs_message (Some VNull)) = Throws s [].
Proof. split; reflexivity. Qed.

Lemma start_without_sid (data : value) (s : session) :
  is_string (opt_prop data "event") "start" = true ->
  truthy (opt_prop (opt_prop data "start") "streamSid") = false ->
  step s (Ev_connection_message (Some data)) =
    Returns (set_twilioStarted true (set_streamSid VNull s)) [].
Proof.
  intros He Hsid. cbn [step].
  rewrite (connection_on_message_start _ _ He). cbv zeta.
  unfold or_else. rewrite Hsid.
  unfold tryStartConversation. simpl.
  destruct (convoStarted s); reflexivity.
Qed.

(** C3, as stated, fails: a caller frame [{"event":"start"}] parses, lacks
    its nested [start.streamSid], and changes the session.  Here it erases
    the identifier of a running conversation. *)
Lemma C3_counterexample :
  ~ (forall (s : session) (data : value),
        is_string (opt_prop data "event") "start" = true ->
        truthy (opt_prop (opt_prop data "start") "streamSid") = false ->
        step s (Ev_connection_message (Some data)) = Returns s []).
Proof.
  intros H.
  specialize (H (mkSession (VStr "CA123") (Some OPEN) true true true 0 0)
                (VObj [("event", VStr "start")]) eq_refl eq_refl).
  vm_compute in H. discriminate H.
Qed.

(** C3, amended.  A frame that is not parseable JSON is dropped on either
    leg: nothing is sent, the session is unchanged, the listener returns.
    So are an agent "audio" frame without [audio_event.audio_base_64] and
    a caller "media" frame without [media.payload].  A caller "start"
    frame without [start.streamSid] is not dropped: it sets
    [twilioStarted], records [streamSid] as [null] and sends nothing.
    The agent's message listener returns on every frame that parses to a
    value other than [null], and so does the caller's, a "start" frame
    whose identifier has no string conversion apart: the run goes on with
    the next event. *)
Theorem C3_malformed_frames :
  (forall s : session,
      step s (Ev_connection_message None) = Returns s []
      /\ step s (Ev_elevenWs_message None) = Returns s [])
  /\ (forall (msg : value) (s : session),
         is_string (opt_prop msg "type") "audio" = true ->
         truthy (opt_prop (opt_prop msg "audio_event") "audio_base_64") = false ->
         step s (Ev_elevenWs_message (Some msg)) = Returns s [])
  /\ (forall (data : value) (s : session),
         is_string (opt_prop data "event") "media" = true ->
         truthy (opt_prop (opt_prop data "media") "payload") = false ->
         step s (Ev_connection_message (Some data)) = Returns s [])
  /\ (forall (data : value) (s : session),
         is_string (opt_prop data "event") "start" = true ->
         truthy (opt_prop (opt_prop data "start") "streamSid") = false ->
         step s (Ev_connection_message (Some data)) =
           Returns (set_twilioStarted true (set_streamSid VNull s)) [])
  /\ (forall (data : value) (s : session) (rest : list event),
         nullish data = false ->
         (unprintable_start (Ev_connection_message (Some data)) = false ->
          exists s' out,
            step s (Ev_connection_message (Some data)) = Returns s' out
            /\ run s (Ev_connection_message (Some data) :: rest)
               = after out (run s' rest))
         /\ (exists s' out,
                step s (Ev_elevenWs_message (Some data)) = Returns s' out
                /\ run s (Ev_elevenWs_message (Some data) :: rest)
                   = after out (run s' rest))).
Proof.
  split; [|split; [|split; [|split]]].
  - intros s. split; reflexivity.
  - intros msg s Ht Hp. cbn [step].
    rewrite (elevenWs_on_message_audio _ _ Ht). cbv zeta. now rewrite Hp.
  - intros data s Hm Hp. cbn [step].
    rewrite (connection_on_message_media _ _ Hm). cbv zeta.
    now rewrite Hp, andb_false_r.
  - exact start_without_sid.
  - intros data s rest Hn.
    destruct (message_listeners_return data s Hn) as [H1 H2].
    split.
    + intros Hp. specialize (H1 Hp). cbn [run].
      destruct (step s (Ev_connection_message (Some data))) as [s' out|];
        [eauto|discriminate].
    + cbn [run].
      destruct (step s (Ev_elevenWs_message (Some data))) as [s' out|];
        [eauto|discriminate].
Qed.

Lemma C3_malformed_frames_witness :
  step init (Ev_elevenWs_message (Some (VObj [("type", VStr "audio")])))
    = Returns init []
  /\ step init (Ev_connection_message (Some (VObj [("event", VStr "media")])))
     = Returns init []
  /\ step (mkSession (VStr "CA123") (Some OPEN) true true true 0 0)
          (Ev_connection_message (Some (VObj [("event", VStr "start")])))
     = Returns (mkSession VNull (Some OPEN) true true true 0 0) []
  /\ (exists s' out,
         step init (Ev_connection_message (Some (VNum 7))) = Returns s' out
         /\ run init [Ev_connection_message (Some (VNum 7)); Ev_elevenWs_open]
            = after out (run s' [Ev_elevenWs_open])).
Proof.
  destruct C3_malformed_frames as (_ & H2 & H3 & H4 & H5).
  split; [|split; [|split]].
  - apply H2; reflexivity.
  - apply H3; reflexivity.
  - apply (H4 (VObj [("event", VStr "start")])
              (mkSession (VStr "CA123") (Some OPEN) true true true 0 0));
      reflexivity.
  - apply (H5 (VNum 7) init [Ev_elevenWs_open]); reflexivity.
Defined.

(** ** Teardown *)

Lemma close_elevenWs_if_open_cases (s : session) :
  (elevenWs_is_open s = true ->
   close_elevenWs_if_open s = (set_elevenWs (Some CLOSING) s, [Close_elevenWs]))
  /\ (elevenWs_is_open s = false -> close_elevenWs_if_open s = (s, [])).
Proof.
  unfold close_elevenWs_if_open, elevenWs_is_open.
  destruct (elevenWs s) as [[]|]; simpl; split; intros; congruence.
Qed.

Lemma step_closes_at_most_one (s : session) (e : event) :
  length (filter is_close (calls (step s e))) <= 1
  /\ existsb closes_connection (calls (step s e)) = false.
Proof.
  destruct e; simpl; unfold_listeners;
    repeat (first [gate_cases | case_if]; simpl); split; simpl; auto.
Qed.

(** C4, as stated, fails: the agent socket opens and then closes while
    the caller socket is still up (no close, no error on it), and the
    bridge makes no call to close the caller socket. *)
Lemma C4_counterexample :
  ~ (forall evs : list event,
        existsb agent_leg_down evs = true ->
        existsb caller_leg_down evs = false ->
        existsb closes_connection (calls (run init evs)) = true).
Proof.
  intros H.
  specialize (H [Ev_elevenWs_open; Ev_elevenWs_close] eq_refl eq_refl).
  vm_compute in H. discriminate H.
Qed.

(** C4, amended.  When the caller socket closes or fails, or the caller
    sends "stop", the bridge closes the agent socket if it is open, and
    does nothing, without raising, if it is not (so a second close is a
    no-op).  When the agent socket closes or fails the bridge makes no
    call at all: the caller socket is left as it is.  No listener makes
    more than one close call, and none closes the caller socket. *)
Theorem C4_teardown :
  (forall (s : session) (e : event),
      caller_teardown e = true ->
      (elevenWs_is_open s = true ->
       step s e = Returns (set_elevenWs (Some CLOSING) s) [Close_elevenWs])
      /\ (elevenWs_is_open s = false -> step s e = Returns s []))
  /\ (forall (s : session) (e : event),
         agent_leg_down e = true ->
         calls (step s e) = [] /\ returned (step s e) = true)
  /\ (forall (s : session) (e : event),
         length (filter is_close (calls (step s e))) <= 1
         /\ existsb closes_connection (calls (step s e)) = false).
Proof.
  split; [|split].
  - intros s e He.
    destruct (close_elevenWs_if_open_cases s) as [Ho Hc].
    destruct e as [| | | |[data|]| |]; try discriminate; cbn [step].
    + simpl in He. rewrite (connection_on_message_stop _ _ He).
      split; intros H; [rewrite (Ho H)|rewrite (Hc H)]; reflexivity.
    + unfold connection_on_close.
      split; intros H; [rewrite (Ho H)|rewrite (Hc H)]; reflexivity.
    + unfold connection_on_error.
      split; intros H; [rewrite (Ho H)|rewrite (Hc H)]; reflexivity.
  - intros s e He. destruct e; try discriminate; split; reflexivity.
  - exact step_closes_at_most_one.
Qed.

Lemma C4_teardown_witness :
  step (mkSession (VStr "CA123") (Some OPEN) true true true 0 0)
       (Ev_connection_message (Some caller_stop))
    = Returns (mkSession (VStr "CA123") (Some CLOSING) true true true 0 0)
        [Close_elevenWs]
  /\ step (mkSession (VStr "CA123") (Some CLOSING) true true true 0 0)
          Ev_connection_close
     = Returns (mkSession (VStr "CA123") (Some CLOSING) true true true 0 0) []
  /\ calls (step (mkSession (VStr "CA123") (Some OPEN) true true true 0 0)
                 Ev_elevenWs_close) = [].
Proof.
  destruct C4_teardown as (H1 & H2 & _). split; [|split].
  - apply (H1 (mkSession (VStr "CA123") (Some OPEN) true true true 0 0)
              (Ev_connection_message (Some caller_stop)) eq_refl).
    reflexivity.
  - apply (H1 (mkSession (VStr "CA123") (Some CLOSING) true true true 0 0)
              Ev_connection_close eq_refl).
    reflexivity.
  - apply (H2 (mkSession (VStr "CA123") (Some OPEN) true true true 0 0)
              Ev_elevenWs_close eq_refl).
Defined.

(** ** The gate and the stream identifier *)

Lemma step_start_needs_sid (s : session) (e : event) :
  1 <= starts (calls (step s e)) ->
  truthy (streamSid (final (step s e))) = true.
Proof.
  intros H. pose proof (step_starts s e) as Hs.
  destruct (step_gate s e) as (_ & _ & Hg). simpl in Hg.
  unfold started in Hs.
  destruct (convoStarted (final (step s e))); [|destruct (convoStarted s); lia].
  destruct (convoStarted s); [lia|].
  destruct (Hg eq_refl) as [Hf|(_ & Hsid & _)]; [discriminate|exact Hsid].
Qed.

(** C10, as stated, fails: [convoStarted] does not imply that the
    recorded identifier is present.  After the gate has fired, a second
    "start" frame without identifier records [null] again. *)
Lemma C10_counterexample :
  ~ (forall evs : list event,
        convoStarted (final (run init evs)) = true ->
        truthy (streamSid (final (run init evs))) = true).
Proof.
  intros H.
  specialize (H [Ev_connection_message (Some (caller_start (VStr "CA123")));
                 Ev_elevenWs_open;
                 Ev_connection_message (Some (VObj [("event", VStr "start")]))]
                eq_refl).
  vm_compute in H. discriminate H.
Qed.

(** C10, amended.  A caller "start" frame whose nested identifier is
    absent or empty sets [twilioStarted], records [streamSid] as [null]
    and sends nothing.  [tryStartConversation] does nothing while
    [streamSid] is not truthy; the event that sends the start signal
    leaves a truthy [streamSid] recorded; from a session without
    identifier no start signal is sent until a "start" frame with an
    identifier arrives; and [convoStarted] implies that such a frame has
    been received (not that the identifier is still recorded). *)
Theorem C10_gate_needs_stream_identifier :
  (forall (data : value) (s : session),
      is_string (opt_prop data "event") "start" = true ->
      truthy (opt_prop (opt_prop data "start") "streamSid") = false ->
      step s (Ev_connection_message (Some data)) =
        Returns (set_twilioStarted true (set_streamSid VNull s)) [])
  /\ (forall s : session,
         truthy (streamSid s) = false -> tryStartConversation s = (s, []))
  /\ (forall (s : session) (e : event),
         1 <= starts (calls (step s e)) ->
         truthy (streamSid (final (step s e))) = true)
  /\ (forall (s : session) (evs : list event),
         truthy (streamSid s) = false ->
         has_start_with_sid evs = false ->
         starts (calls (run s evs)) = 0)
  /\ (forall evs : list event,
         convoStarted (final (run init evs)) = true ->
         has_start_with_sid evs = true).
Proof.
  split; [|split; [|split; [|split]]].
  - exact start_without_sid.
  - intros s Hsid. unfold tryStartConversation. rewrite Hsid. simpl.
    rewrite orb_true_r. now destruct (convoStarted s).
  - exact step_start_needs_sid.
  - intros s evs. apply no_start_without_sid.
  - intros evs Hc.
    destruct (run_gate evs init) as (_ & _ & Hg). simpl in Hg.
    destruct (Hg Hc) as [Hf|[_ [Hf|Hs]]]; try discriminate. exact Hs.
Qed.

Lemma C10_gate_needs_stream_identifier_witness :
  let no_sid := Ev_connection_message (Some (VObj [("event", VStr "start")])) in
  let with_sid := Ev_connection_message (Some (caller_start (VStr "CA123"))) in
  step init no_sid = Returns (mkSession VNull (Some CONNECTING) true false false 0 0) []
  /\ tryStartConversation (mkSession VNull (Some OPEN) true true false 0 0)
     = (mkSession VNull (Some OPEN) true true false 0 0, [])
  /\ truthy (streamSid (final (step (mkSession VNull (Some OPEN) false true false 0 0)
                                    with_sid))) = true
  /\ starts (calls (run init [no_sid; Ev_elevenWs_open; no_sid])) = 0
  /\ has_start_with_sid [Ev_elevenWs_open; with_sid] = true.
Proof.
  destruct C10_gate_needs_stream_identifier as (H1 & H2 & H3 & H4 & H5).
  cbv zeta. split; [|split; [|split; [|split]]].
  - apply (H1 (VObj [("event", VStr "start")]) init); reflexivity.
  - apply H2. reflexivity.
  - apply H3. vm_compute. lia.
  - apply H4; reflexivity.
  - apply H5. reflexivity.
Defined.

(** ** The credential request *)

Lemma all_chars_app (p : ascii -> bool) (a b : string) :
  all_chars p (a ++ b) = all_chars p a && all_chars p b.
Proof.
  unfold all_chars. induction a as [|c a IH]; simpl; [reflexivity|].
  now rewrite IH, andb_assoc.
Qed.

Ltac each_byte c :=
  destruct c as [[] [] [] [] [] [] [] []]; vm_compute; try reflexivity;
  try discriminate.

Lemma encoded_byte_safe (c : ascii) :
  all_chars Url.safe_in_query
    (if Url.unreserved c then String c EmptyString else Url.percent_encode c)
  = true.
Proof. each_byte c. Qed.

Lemma encodeURIComponent_safe (s : string) :
  all_chars Url.safe_in_query (Url.encodeURIComponent s) = true.
Proof.
  induction s as [|c s IH]; simpl; [reflexivity|].
  now rewrite all_chars_app, encoded_byte_safe, IH.
Qed.

Lemma safe_not_delimiter (c : ascii) :
  Url.safe_in_query c = true -> ((c =? "&") || (c =? "#"))%char = false.
Proof. each_byte c. Qed.

Lemma until_delimiter_safe (s : string) :
  all_chars Url.safe_in_query s = true -> Url.until_delimiter s = s.
Proof.
  unfold all_chars. induction s as [|c s IH]; simpl; [reflexivity|].
  intros H. apply andb_true_iff in H. destruct H as [Hc Hs].
  rewrite (safe_not_delimiter c Hc). now rewrite IH.
Qed.

Lemma unreserved_not_percent (c : ascii) :
  Url.unreserved c = true -> (c =? "%")%char = false.
Proof. each_byte c. Qed.

Lemma hex_digits_back (c : ascii) :
  Url.hex_value (Url.hex_digit (N_of_ascii c / 16)) = Some (N_of_ascii c / 16)%N
  /\ Url.hex_value (Url.hex_digit (N_of_ascii c mod 16))
     = Some (N_of_ascii c mod 16)%N
  /\ ascii_of_N (16 * (N_of_ascii c / 16) + N_of_ascii c mod 16) = c.
Proof. each_byte c; repeat split. Qed.

Lemma decode_encoded_byte (c : ascii) (rest : string) :
  Url.percent_decode
    ((if Url.unreserved c then String c EmptyString else Url.percent_encode c)
     ++ rest)
  = option_map (String c) (Url.percent_decode rest).
Proof.
  destruct (Url.unreserved c) eqn:Hu.
  - cbn [append Url.percent_decode].
    now rewrite (unreserved_not_percent c Hu).
  - unfold Url.percent_encode. cbn [append Url.percent_decode].
    destruct (hex_digits_back c) as (Hh & Hl & Hc).
    change ("%" =? "%")%char with true. cbv iota.
    now rewrite Hh, Hl, Hc.
Qed.

Lemma percent_decode_encodeURIComponent (s : string) :
  Url.percent_decode (Url.encodeURIComponent s) = Some s.
Proof.
  induction s as [|c s IH]; [reflexivity|].
  cbn [Url.encodeURIComponent]. now rewrite decode_encoded_byte, IH.
Qed.

(** C9.  For every agent identifier, the [agent_id] parameter of the URL
    [getSignedUrl] requests is exactly [encodeURIComponent] of the
    identifier: it is made of unreserved characters and [%XX] escapes
    only, is not cut short by any character of the identifier, and
    percent-decodes back to the identifier. *)
Theorem C9_agent_id_url_encoded :
  forall id : string,
    Url.first_param "agent_id" (getSignedUrl_url id)
      = Some (Url.encodeURIComponent id)
    /\ all_chars Url.safe_in_query (Url.encodeURIComponent id) = true
    /\ Url.percent_decode (Url.encodeURIComponent id) = Some id.
Proof.
  intros id. split; [|split].
  - unfold getSignedUrl_url, Url.first_param. cbn.
    now rewrite until_delimiter_safe by apply encodeURIComponent_safe.
  - apply encodeURIComponent_safe.
  - apply percent_decode_encodeURIComponent.
Qed.

Example getSignedUrl_url_escapes :
  getSignedUrl_url "agent 1&x=y/#" =
  "https://api.elevenlabs.io/v1/convai/conversation/get_signed_url?agent_id=agent%201%26x%3Dy%2F%23".
Proof. reflexivity. Qed.

(** ** Setting up, and the earlier revision *)

Lemma media_stream_listening (url : value) (connection_socket : bool) :
  media_stream (Some url) true connection_socket = Listening init.
Proof. reflexivity. Qed.

Lemma media_stream_failed (signedUrl : option value) (connection_socket : bool) :
  media_stream signedUrl false connection_socket =
  Failed (mkSession VNull None false false false 0 0)
    (if connection_socket then [Close_connection_socket] else []).
Proof. now destruct signedUrl. Qed.

Lemma is_string_audio_not_interruption (v : value) :
  is_string v "audio" = true -> is_string v "interruption" = false.
Proof. intros H. now rewrite (is_string_eq _ _ H). Qed.

(** On agent frames the two revisions do the same. *)
Lemma rev0_agent_message_agrees (raw : option value) (s : session) :
  Rev0.elevenWs_on_message raw (rev0_view s)
  = outcome_map rev0_view (elevenWs_on_message raw s).
Proof.
  unfold Rev0.elevenWs_on_message, elevenWs_on_message.
  destruct raw as [msg|]; [|reflexivity].
  destruct (prop msg "type") as [type|]; [|reflexivity].
  cbn [Rev0.streamSid rev0_view].
  destruct (is_string type "audio") eqn:Ha.
  - rewrite (is_string_audio_not_interruption _ Ha). simpl.
    destruct (truthy (opt_prop _ "audio_base_64")); simpl; [|reflexivity].
    now destruct (truthy (streamSid s)).
  - simpl. now destruct (is_string type "interruption" && truthy (streamSid s)).
Qed.

(** So they do on caller "media" frames. *)
Lemma rev0_caller_media_agrees (data : value) (s : session) :
  is_string (opt_prop data "event") "media" = true ->
  Rev0.connection_on_message (Some data) (rev0_view s)
  = outcome_map rev0_view (connection_on_message (Some data) s).
Proof.
  intros Hm. rewrite (connection_on_message_media _ _ Hm). cbv zeta.
  apply opt_prop_is_string in Hm.
  unfold Rev0.connection_on_message. rewrite Hm. simpl.
  change (Rev0.elevenWs_is_open (rev0_view s)) with (elevenWs_is_open s).
  now destruct (elevenWs_is_open s && truthy _).
Qed.

(** The earlier revision has no start signal: its "open" listener sends
    the configuration frame and nothing else. *)
Lemma rev0_open_sends_config_only (s : Rev0.session) :
  Rev0.elevenWs s <> None ->
  Rev0.elevenWs_on_open s = Returns s [Send_elevenWs conversation_config_frame].
Proof.
  unfold Rev0.elevenWs_on_open. now destruct (Rev0.elevenWs s).
Qed.

(** It reads [data.start.streamSid] without [?.]: a "start" frame
    without [start] raises. *)
Lemma rev0_start_without_start_throws (s : Rev0.session) :
  Rev0.connection_on_message (Some (VObj [("event", VStr "start")])) s
  = Throws s [].
Proof. reflexivity. Qed.

(** It closes the agent socket whenever the variable is set, the later
    revision only when the socket is open. *)
Lemma rev0_close_unguarded (sid : value) :
  Rev0.connection_on_close (Rev0.mkSession sid (Some CONNECTING))
    = Returns (Rev0.mkSession sid (Some CLOSING)) [Close_elevenWs]
  /\ connection_on_close (mkSession sid (Some CONNECTING) false false false 0 0)
     = Returns (mkSession sid (Some CONNECTING) false false false 0 0) [].
Proof. split; reflexivity. Qed.

(** It pastes the identifier into the URL unescaped. *)
Lemma rev0_url_not_encoded :
  Url.first_param "agent_id" (Rev0.getSignedUrl_url "a&b") = Some "a"
  /\ Url.first_param "agent_id" (getSignedUrl_url "a&b") = Some "a%26b".
Proof. split; reflexivity. Qed.

(** * Further properties of the bridge *)

(** ** Frame counters *)

Lemma plus_plus_bounded (n : N) :
  (n + 1 <= 2 ^ 53)%N -> plus_plus n = (n + 1)%N.
Proof.
  unfold plus_plus. remember (2 ^ 53)%N as B.
  destruct (N.ltb_spec n B); [reflexivity|lia].
Qed.

Lemma step_counters (s : session) (e : event) :
  ((twilioInboundFrames s
    + N.of_nat (length (filter is_chunk (calls (step s e)))) <= 2 ^ 53)%N ->
   twilioInboundFrames (final (step s e))
   = (twilioInboundFrames s
      + N.of_nat (length (filter is_chunk (calls (step s e)))))%N)
  /\ ((twilioOutboundFrames s
       + N.of_nat (length (filter is_media_envelope (calls (step s e))))
       <= 2 ^ 53)%N ->
      twilioOutboundFrames (final (step s e))
      = (twilioOutboundFrames s
         + N.of_nat (length (filter is_media_envelope (calls (step s e)))))%N).
Proof.
  enough (H : forall ci co : list action -> N,
             ci = (fun out => N.of_nat (length (filter is_chunk out))) ->
             co = (fun out => N.of_nat (length (filter is_media_envelope out))) ->
             ((twilioInboundFrames s + ci (calls (step s e)) <= 2 ^ 53)%N ->
              twilioInboundFrames (final (step s e))
              = (twilioInboundFrames s + ci (calls (step s e)))%N)
             /\ ((twilioOutboundFrames s + co (calls (step s e)) <= 2 ^ 53)%N ->
                 twilioOutboundFrames (final (step s e))
                 = (twilioOutboundFrames s + co (calls (step s e)))%N))
    by exact (H _ _ eq_refl eq_refl).
  intros ci co Hci Hco.
  destruct e; simpl; listener_cases; bool_hyps; subst ci co;
    unfold user_audio_chunk_frame; cbn -[N.pow];
    repeat match goal with H : truthy _ = true |- _ => rewrite H end;
    cbn -[N.pow]; remember (2 ^ 53)%N as B; split; intros Hb;
    try lia; apply plus_plus_bounded; subst B; exact Hb.
Qed.

(** The two debugging counters are exact as long as they stay within
    2^53: over any run that forwards no more frames than that, each
    grows by the number of frames forwarded in its direction. *)
Theorem counters_count_forwarded_frames (evs : list event) (s : session) :
  ((twilioInboundFrames s
    + N.of_nat (length (filter is_chunk (calls (run s evs)))) <= 2 ^ 53)%N ->
   twilioInboundFrames (final (run s evs))
   = (twilioInboundFrames s
      + N.of_nat (length (filter is_chunk (calls (run s evs)))))%N)
  /\ ((twilioOutboundFrames s
       + N.of_nat (length (filter is_media_envelope (calls (run s evs))))
       <= 2 ^ 53)%N ->
      twilioOutboundFrames (final (run s evs))
      = (twilioOutboundFrames s
         + N.of_nat (length (filter is_media_envelope (calls (run s evs)))))%N).
Proof.
  revert s. induction evs as [|e evs IH]; intros s; simpl.
  - split; intros _; lia.
  - pose proof (step_counters s e) as [Hi Ho].
    destruct (step s e) as [s1 o1|s1 o1]; simpl in *; [|split; assumption].
    destruct (IH s1) as [Ii Io].
    rewrite final_after, calls_after, !filter_app, !length_app.
    remember (2 ^ 53)%N as B.
    split; intros Hb.
    + rewrite Ii; rewrite Hi; lia.
    + rewrite Io; rewrite Ho; lia.
Qed.

Lemma counters_count_forwarded_frames_witness :
  twilioInboundFrames
    (final (run (mkSession VNull (Some OPEN) false true false 0 0)
              [Ev_connection_message (Some (caller_media (VStr "AAAA")));
               Ev_connection_message (Some (caller_media (VStr "BBBB")))]))
  = 2%N.
Proof.
  apply (proj1 (counters_count_forwarded_frames
                  [Ev_connection_message (Some (caller_media (VStr "AAAA")));
                   Ev_connection_message (Some (caller_media (VStr "BBBB")))]
                  (mkSession VNull (Some OPEN) false true false 0 0))).
  vm_compute. discriminate.
Defined.

(** ** When a listener raises *)

Lemma step_returns (s : session) (e : event) :
  elevenWs s <> None -> raising e = false ->
  returned (step s e) = true /\ elevenWs (final (step s e)) <> None.
Proof.
  intros Hw Hn. unfold raising in Hn. apply orb_false_iff in Hn.
  destruct Hn as [Hn Hp]. split.
  - destruct e as [|[msg|]| | |[data|]| |]; simpl in Hn; cbn [step];
      try reflexivity.
    + unfold elevenWs_on_open, ws_moves_to. simpl.
      destruct (elevenWs s); [|congruence]. simpl. now gate_cases.
    + now destruct (message_listeners_return msg s Hn).
    + destruct (message_listeners_return data s Hn) as [H _]. now apply H.
    + unfold connection_on_close. now destruct (close_elevenWs_if_open s).
    + unfold connection_on_error. now destruct (close_elevenWs_if_open s).
  - destruct (elevenWs s) as [r|] eqn:Ew; [clear Hw|congruence].
    destruct e; simpl; listener_cases;
      unfold elevenWs_is_open, ws_moves_to in *; simpl in *;
      rewrite ?Ew in *; simpl in *; congruence.
Qed.

Lemma step_raising_throws (s : session) (e : event) :
  raising e = true -> returned (step s e) = false.
Proof.
  unfold raising. intros H. apply orb_true_iff in H. destruct H as [H|H].
  - destruct e as [|[msg|]| | |[data|]| |]; simpl in *; try discriminate.
    + destruct msg; try discriminate; reflexivity.
    + destruct data; try discriminate; reflexivity.
  - destruct e as [| | | |[data|]| |]; simpl in H; try discriminate.
    apply andb_true_iff in H. destruct H as [He Hp]. cbn [step].
    rewrite (connection_on_message_start _ _ He). cbv zeta. now rewrite Hp.
Qed.

(** From a session whose agent socket exists, a run is cut short by an
    exception exactly when one of its messages is the JSON text [null] or
    a caller "start" frame whose identifier has no string conversion (an
    object with an own [toString] property, or an array holding one):
    no other frame, and no order of events, makes a listener raise. *)
Theorem run_raises_exactly_on_raising_frames (evs : list event) (s : session) :
  elevenWs s <> None ->
  (returned (run s evs) = true <-> existsb raising evs = false).
Proof.
  revert s. induction evs as [|e evs IH]; intros s Hw; simpl.
  - tauto.
  - destruct (raising e) eqn:Hn; simpl.
    + pose proof (step_raising_throws s e Hn) as Ht.
      destruct (step s e); simpl in *; [discriminate|].
      split; discriminate.
    + destruct (step_returns s e Hw Hn) as [Hr Hw'].
      destruct (step s e) as [s1 o1|]; simpl in *; [|discriminate].
      rewrite returned_after. now apply IH.
Qed.

Lemma run_raises_exactly_on_raising_frames_witness :
  returned (run init [Ev_connection_message (Some (VNum 3));
                      Ev_elevenWs_open;
                      Ev_connection_message
                        (Some (caller_start (VArr [VStr "CA"; VNull])));
                      Ev_elevenWs_message (Some (VStr "ping"))]) = true.
Proof.
  apply (run_raises_exactly_on_raising_frames _ init);
    [discriminate|reflexivity].
Defined.

(** ** Calls on the agent socket *)

(** [elevenWs.send] is only ever called on an open socket (for the
    "open" listener: the socket that has just opened), and
    [elevenWs.close] only on an open one. *)
Theorem agent_socket_used_only_when_open (s : session) (e : event) (a : action) :
  In a (calls (step s e)) -> on_elevenWs a = true ->
  elevenWs_is_open (if is_open_event e then ws_moves_to OPEN s else s) = true.
Proof.
  destruct e; simpl.
  - unfold elevenWs_on_open, elevenWs_is_open. simpl.
    destruct (elevenWs s); simpl; tauto.
  - unfold elevenWs_on_message.
    repeat (case_if; simpl); intros Hin Ha;
      repeat (destruct Hin as [<-|Hin]; try discriminate); contradiction.
  - tauto.
  - tauto.
  - unfold connection_on_message, close_elevenWs_if_open.
    repeat (first [gate_cases | case_if]; simpl); bool_hyps;
      intros Hin Ha; try contradiction; try assumption;
      unfold elevenWs_is_open in *; simpl in *; try assumption;
      repeat (destruct Hin as [<-|Hin]; try discriminate); try contradiction;
      try congruence.
  - unfold connection_on_close, close_elevenWs_if_open.
    case_if; simpl; tauto.
  - unfold connection_on_error, close_elevenWs_if_open.
    case_if; simpl; tauto.
Qed.

Lemma agent_socket_used_only_when_open_witness :
  elevenWs_is_open (mkSession VNull (Some OPEN) false true false 0 0) = true.
Proof.
  apply (agent_socket_used_only_when_open
           (mkSession VNull (Some OPEN) false true false 0 0)
           (Ev_connection_message (Some (caller_media (VStr "AAAA"))))
           (Send_elevenWs (user_audio_chunk_frame (VStr "AAAA")))).
  - simpl. left. reflexivity.
  - reflexivity.
Defined.

Lemma run_quiet_until_open (evs : list event) (s : session) :
  elevenWs_is_open s = false -> has_open evs = false ->
  agent_leg (calls (run s evs)) = []
  /\ elevenWs_is_open (final (run s evs)) = false.
Proof.
  revert s. induction evs as [|e evs IH]; intros s Hc Ho; simpl.
  - now split.
  - unfold has_open in Ho. simpl in Ho. apply orb_false_iff in Ho.
    destruct Ho as [He Ho].
    destruct (step_quiet_until_open s e Hc He) as [Hq Hc'].
    destruct (step s e) as [s1 o1|s1 o1]; simpl in *; [|now split].
    destruct (IH s1 Hc' Ho) as [Iq Ic].
    rewrite calls_after, final_after, agent_leg_app, Hq, Iq. now split.
Qed.

Lemma caller_teardown_step (s : session) (e : event) :
  caller_teardown e = true ->
  (elevenWs_is_open s = true ->
   step s e = Returns (set_elevenWs (Some CLOSING) s) [Close_elevenWs])
  /\ (elevenWs_is_open s = false -> step s e = Returns s []).
Proof.
  intros He.
  destruct (close_elevenWs_if_open_cases s) as [Ho Hc].
  destruct e as [| | | |[data|]| |]; try discriminate; cbn [step].
  - simpl in He. rewrite (connection_on_message_stop _ _ He).
    split; intros H; [rewrite (Ho H)|rewrite (Hc H)]; reflexivity.
  - unfold connection_on_close.
    split; intros H; [rewrite (Ho H)|rewrite (Hc H)]; reflexivity.
  - unfold connection_on_error.
    split; intros H; [rewrite (Ho H)|rewrite (Hc H)]; reflexivity.
Qed.

(** Once the caller has hung up (close, error or "stop"), the close call
    is the last thing the agent socket gets: whatever arrives afterwards,
    short of the socket opening anew, nothing more is sent to it. *)
Theorem nothing_reaches_agent_after_teardown
        (s : session) (e : event) (rest : list event) :
  caller_teardown e = true -> has_open rest = false ->
  agent_leg (calls (run s (e :: rest)))
  = if elevenWs_is_open s then [Close_elevenWs] else [].
Proof.
  intros He Ho.
  destruct (caller_teardown_step s e He) as [Hopen Hclosed].
  cbn [run]. destruct (elevenWs_is_open s) eqn:Hs.
  - rewrite (Hopen eq_refl). rewrite calls_after, agent_leg_app.
    destruct (run_quiet_until_open rest (set_elevenWs (Some CLOSING) s))
      as [Hq _]; [reflexivity|exact Ho|].
    now rewrite Hq.
  - rewrite (Hclosed eq_refl). rewrite calls_after, agent_leg_app.
    destruct (run_quiet_until_open rest s Hs Ho) as [Hq _].
    now rewrite Hq.
Qed.

Lemma nothing_reaches_agent_after_teardown_witness :
  agent_leg
    (calls (run (mkSession (VStr "CA123") (Some OPEN) true true true 0 0)
              [Ev_connection_message (Some caller_stop);
               Ev_connection_message (Some (caller_media (VStr "AAAA")));
               Ev_connection_close]))
  = [Close_elevenWs].
Proof.
  apply (nothing_reaches_agent_after_teardown
           (mkSession (VStr "CA123") (Some OPEN) true true true 0 0)
           (Ev_connection_message (Some caller_stop))
           [Ev_connection_message (Some (caller_media (VStr "AAAA")));
            Ev_connection_close]); reflexivity.
Defined.

(** ** What each leg can make the bridge send *)

Lemma message_calls (raw : option value) (s : session) (a : action) :
  (In a (calls (step s (Ev_elevenWs_message raw))) ->
   (exists p, truthy p = true
              /\ a = Send_connection (twilioFrame (streamSid s) p))
   \/ a = Send_connection (clear_frame (streamSid s)))
  /\ (In a (calls (step s (Ev_connection_message raw))) ->
      a = Send_elevenWs start_frame
      \/ a = Close_elevenWs
      \/ exists p, truthy p = true
                   /\ a = Send_elevenWs (user_audio_chunk_frame p)).
Proof.
  split; cbn [step].
  - unfold elevenWs_on_message.
    repeat (case_if; simpl); bool_hyps; intros Hin;
      repeat (destruct Hin as [<-|Hin]); try contradiction; eauto.
  - unfold connection_on_message, close_elevenWs_if_open.
    repeat (first [gate_cases | case_if]; simpl); bool_hyps; intros Hin;
      repeat (destruct Hin as [<-|Hin]); try contradiction; eauto 6.
Qed.

(** A message from the agent only ever produces frames for the caller
    (a media envelope or a clear frame, both with the recorded
    identifier); a message from the caller only ever produces calls on the
    agent socket (the start signal, an audio chunk with a truthy payload,
    or close).  Nothing is sent back on the leg a message came from. *)
Theorem messages_cross_the_bridge (raw : option value) (s : session) (a : action) :
  (In a (calls (step s (Ev_elevenWs_message raw))) ->
   (exists p, truthy p = true
              /\ a = Send_connection (twilioFrame (streamSid s) p))
   \/ a = Send_connection (clear_frame (streamSid s)))
  /\ (In a (calls (step s (Ev_connection_message raw))) ->
      a = Send_elevenWs start_frame
      \/ a = Close_elevenWs
      \/ exists p, truthy p = true
                   /\ a = Send_elevenWs (user_audio_chunk_frame p)).
Proof. exact (message_calls raw s a). Qed.

Lemma messages_cross_the_bridge_witness :
  Send_elevenWs (user_audio_chunk_frame (VStr "AAAA")) = Send_elevenWs start_frame
  \/ Send_elevenWs (user_audio_chunk_frame (VStr "AAAA")) = Close_elevenWs
  \/ exists p, truthy p = true
               /\ Send_elevenWs (user_audio_chunk_frame (VStr "AAAA"))
                  = Send_elevenWs (user_audio_chunk_frame p).
Proof.
  apply (proj2 (messages_cross_the_bridge
                  (Some (caller_media (VStr "AAAA")))
                  (mkSession VNull (Some OPEN) false true false 0 0)
                  (Send_elevenWs (user_audio_chunk_frame (VStr "AAAA"))))).
  simpl. left. reflexivity.
Defined.

(** ** The stream identifier *)

Lemma step_streamSid (s : session) (e : event) :
  streamSid (final (step s e)) = sid_after e (streamSid s).
Proof.
  destruct e as [|raw| | |[data|]| |]; simpl; try reflexivity.
  - unfold elevenWs_on_open. simpl.
    destruct (elevenWs s); simpl; [|reflexivity]. now gate_cases.
  - unfold elevenWs_on_message. repeat (case_if; simpl); reflexivity.
  - unfold connection_on_message.
    destruct (prop data "event") as [event|] eqn:He; simpl.
    + rewrite (prop_opt_prop _ _ _ He).
      destruct (is_string event "start"); simpl.
      * destruct (to_string_raises _); [reflexivity|]. now gate_cases.
      * unfold close_elevenWs_if_open. repeat (case_if; simpl); reflexivity.
    + unfold opt_prop. now rewrite He.
  - unfold connection_on_close, close_elevenWs_if_open. now case_if.
  - unfold connection_on_error, close_elevenWs_if_open. now case_if.
Qed.

Lemma run_streamSid (evs : list event) (s : session) :
  returned (run s evs) = true ->
  streamSid (final (run s evs)) = recorded_sid (streamSid s) evs.
Proof.
  revert s. induction evs as [|e evs IH]; intros s Hr; simpl in *.
  - reflexivity.
  - pose proof (step_streamSid s e) as Hs.
    destruct (step s e) as [s1 o1|s1 o1]; simpl in *; [|discriminate].
    rewrite returned_after in Hr. rewrite final_after.
    unfold recorded_sid in *. simpl. rewrite <- Hs. now apply IH.
Qed.

Lemma on_wire_twilioFrame (sid p : value) :
  truthy sid = true -> truthy p = true ->
  on_wire (twilioFrame sid p)
  = VObj [("event", VStr "media");
          ("streamSid", on_wire sid);
          ("media", VObj [("payload", on_wire p)])].
Proof.
  intros Hs Hp.
  destruct sid; try discriminate; destruct p; try discriminate; reflexivity.
Qed.

Lemma on_wire_clear_frame (sid : value) :
  truthy sid = true ->
  on_wire (clear_frame sid)
  = VObj [("event", VStr "clear"); ("streamSid", on_wire sid)].
Proof. intros Hs. destruct sid; try discriminate; reflexivity. Qed.

Lemma on_wire_null_iff (v : value) :
  truthy v = true -> (on_wire v = VNull <-> exists b, v = VInf b).
Proof.
  intros Hv. destruct v; try discriminate; simpl;
    split; intros H; try discriminate; eauto;
    destruct H as [? H]; discriminate.
Qed.

(** The frames handed to [connection.send], in a session at the end of a
    run that returned: a media envelope or a clear frame, with the
    identifier on record, which is truthy. *)
Lemma caller_frame_shape
      (s : session) (pre : list event) (e : event) (v : value) :
  returned (run s pre) = true ->
  In (Send_connection v) (calls (step (final (run s pre)) e)) ->
  truthy (recorded_sid (streamSid s) pre) = true
  /\ ((exists p, truthy p = true
                 /\ v = twilioFrame (recorded_sid (streamSid s) pre) p)
      \/ v = clear_frame (recorded_sid (streamSid s) pre)).
Proof.
  intros Hr Hin. rewrite <- (run_streamSid pre s Hr).
  pose proof (step_carries_streamSid (final (run s pre)) e) as Hc.
  rewrite forallb_forall in Hc. specialize (Hc _ Hin). simpl in Hc.
  destruct e as [|raw| | |raw| |].
  - cbn [step] in Hin. unfold elevenWs_on_open in Hin. simpl in Hin.
    destruct (elevenWs _); simpl in Hin; [|contradiction].
    revert Hin. gate_cases; simpl; intuition discriminate.
  - destruct (message_calls raw (final (run s pre))
                (Send_connection v)) as [Hm _].
    destruct (Hm Hin) as [(p & Hp & Hv)|Hv]; inversion Hv; subst v;
      (split; [exact Hc|]); eauto.
  - contradiction.
  - contradiction.
  - destruct (message_calls raw (final (run s pre))
                (Send_connection v)) as [_ Hm].
    destruct (Hm Hin) as [Hp|[Hp|(p & _ & Hp)]]; discriminate.
  - cbn [step] in Hin. unfold connection_on_close, close_elevenWs_if_open in Hin.
    revert Hin. case_if; simpl; intuition discriminate.
  - cbn [step] in Hin. unfold connection_on_error, close_elevenWs_if_open in Hin.
    revert Hin. case_if; simpl; intuition discriminate.
Qed.

(** Every frame handed to [connection.send] carries, unchanged, the
    identifier of the latest caller "start" frame received so far, and
    that identifier is truthy.  In the text [JSON.stringify] writes for
    the frame, the [streamSid] field is what it writes for that
    identifier: the same non-empty string when the identifier is a
    string, and [null] exactly when the identifier is plus or minus
    [Infinity]. *)
Theorem caller_frames_echo_latest_streamSid
        (s : session) (pre : list event) (e : event) (v : value) :
  returned (run s pre) = true ->
  In (Send_connection v) (calls (step (final (run s pre)) e)) ->
  let sid := recorded_sid (streamSid s) pre in
  opt_prop v "streamSid" = sid
  /\ truthy sid = true
  /\ opt_prop (on_wire v) "streamSid" = on_wire sid
  /\ (forall str : string,
         sid = VStr str ->
         opt_prop (on_wire v) "streamSid" = VStr str /\ str <> EmptyString)
  /\ (opt_prop (on_wire v) "streamSid" = VNull <-> exists b, sid = VInf b).
Proof.
  intros Hr Hin sid.
  destruct (caller_frame_shape s pre e v Hr Hin) as [Ht Hv]. fold sid in Ht, Hv.
  assert (Hf : opt_prop v "streamSid" = sid
               /\ opt_prop (on_wire v) "streamSid" = on_wire sid).
  { destruct Hv as [(p & Hp & ->)| ->].
    - rewrite (on_wire_twilioFrame _ _ Ht Hp). split; reflexivity.
    - rewrite (on_wire_clear_frame _ Ht). split; reflexivity. }
  destruct Hf as [Hf Hw]. repeat split; try assumption.
  - rewrite Hw, H. reflexivity.
  - intros E. rewrite H, E in Ht. discriminate.
  - rewrite Hw. apply on_wire_null_iff. exact Ht.
  - rewrite Hw. apply on_wire_null_iff. exact Ht.
Qed.

Lemma caller_frames_echo_latest_streamSid_witness :
  opt_prop (on_wire (twilioFrame (VStr "CA2") (VStr "QUJD"))) "streamSid"
  = VStr "CA2".
Proof.
  apply (caller_frames_echo_latest_streamSid init
           [Ev_connection_message (Some (caller_start (VStr "CA1")));
            Ev_connection_message (Some (caller_start (VStr "CA2")))]
           (Ev_elevenWs_message (Some (agent_audio (VStr "QUJD"))))
           (twilioFrame (VStr "CA2") (VStr "QUJD")) eq_refl).
  - simpl. left. reflexivity.
  - reflexivity.
Defined.

(** ** The gate between events *)

Lemma step_open_flag (s : session) (e : event) :
  (elevenWs_is_open s = true -> elevenOpen s = true) ->
  elevenWs_is_open (final (step s e)) = true ->
  elevenOpen (final (step s e)) = true.
Proof.
  intros Hs. destruct s as [sid w ts eo cs n1 n2].
  destruct e; simpl; listener_cases;
    unfold elevenWs_is_open, ws_moves_to in *; simpl in *;
    try assumption; try reflexivity;
    destruct w as [[]|]; simpl in *; intros; auto; discriminate.
Qed.

Lemma run_open_flag (evs : list event) (s : session) :
  (elevenWs_is_open s = true -> elevenOpen s = true) ->
  elevenWs_is_open (final (run s evs)) = true ->
  elevenOpen (final (run s evs)) = true.
Proof.
  revert s. induction evs as [|e evs IH]; intros s Hs; simpl; [exact Hs|].
  pose proof (step_open_flag s e Hs) as H1.
  destruct (step s e) as [s1 o1|s1 o1]; simpl in *; [|exact H1].
  rewrite final_after. now apply IH.
Qed.

(** In every session a run from [init] reaches, an open agent socket has
    [elevenOpen] set (the test of that flag in [tryStartConversation]
    never decides), and, as long as no listener has raised, the gate is
    settled: evaluating it once more sends nothing and changes nothing. *)
Theorem gate_is_settled_between_events (evs : list event) :
  let s := final (run init evs) in
  (elevenWs_is_open s = true -> elevenOpen s = true)
  /\ (returned (run init evs) = true -> tryStartConversation s = (s, [])).
Proof.
  intros s. split.
  - apply run_open_flag. discriminate.
  - intros Hr.
    destruct (run_gate_settled evs init init_gate_settled Hr) as [H1 H2].
    fold s in H1, H2.
    destruct (tryStartConversation_cases s)
      as [E|(_ & Hc & Ht & Hsid & Ho & _)]; [exact E|].
    rewrite (H2 Ht Hsid Ho) in Hc. discriminate.
Qed.

(** ** Audio is relayed in order *)

Lemma prop_none_opt_prop (v : value) (k : string) :
  prop v k = None -> opt_prop v k = VUndefined.
Proof. unfold opt_prop. now intros ->. Qed.

Lemma step_keeps_agent_open (s : session) (e : event) :
  elevenWs_is_open s = true -> ends_agent_leg e = false ->
  elevenWs_is_open (final (step s e)) = true.
Proof.
  intros Ho He. unfold ends_agent_leg in He. apply orb_false_iff in He.
  destruct He as [Hc Ha].
  destruct e as [|raw| | |[data|]| |]; simpl in *; try discriminate.
  - unfold elevenWs_on_open, elevenWs_is_open, ws_moves_to in *. simpl.
    destruct (elevenWs s) eqn:Ew; simpl in *; [|discriminate].
    gate_cases; simpl; rewrite ?Ew; reflexivity.
  - unfold elevenWs_on_message. repeat (case_if; simpl); assumption.
  - unfold connection_on_message.
    destruct (prop data "event") as [event|] eqn:Hp; simpl; [|assumption].
    rewrite (prop_opt_prop _ _ _ Hp) in Hc. rewrite Hc.
    repeat (first [gate_cases | case_if]; simpl); assumption.
  - assumption.
Qed.

Lemma step_chunks (s : session) (e : event) :
  elevenWs_is_open s = true ->
  flat_map chunk_payload (calls (step s e)) = media_payload e.
Proof.
  intros Ho.
  destruct e as [|raw| | |[data|]| |]; simpl; try reflexivity.
  - unfold elevenWs_on_open. simpl.
    destruct (elevenWs _); simpl; [|reflexivity]. now gate_cases.
  - unfold elevenWs_on_message. repeat (case_if; simpl); reflexivity.
  - unfold connection_on_message.
    destruct (prop data "event") as [event|] eqn:Hp; simpl.
    + rewrite (prop_opt_prop _ _ _ Hp).
      destruct (is_string event "start") eqn:Hs; simpl.
      * rewrite (is_string_eq _ _ Hs). simpl.
        destruct (to_string_raises _); [reflexivity|]. now gate_cases.
      * rewrite Ho. unfold close_elevenWs_if_open.
        destruct (is_string event "media") eqn:Hm; simpl.
        -- rewrite (is_string_eq _ _ Hm). simpl.
           destruct (truthy (opt_prop (opt_prop data "media") "payload"))
             eqn:Ht; simpl.
           ++ unfold user_audio_chunk_frame. cbn. now rewrite Ht.
           ++ reflexivity.
        -- repeat (case_if; simpl); reflexivity.
    + now rewrite (prop_none_opt_prop _ _ Hp).
  - unfold connection_on_close, close_elevenWs_if_open. now case_if.
  - unfold connection_on_error, close_elevenWs_if_open. now case_if.
Qed.

(** While the agent socket stays open (no hang-up, no agent close or
    error among the events), a run that is not cut short forwards to the
    agent exactly the truthy payloads of the caller's "media" frames: each
    once, unchanged, in the order received, whatever else is interleaved. *)
Theorem caller_audio_relayed_in_order (evs : list event) (s : session) :
  elevenWs_is_open s = true ->
  existsb ends_agent_leg evs = false ->
  returned (run s evs) = true ->
  flat_map chunk_payload (calls (run s evs)) = flat_map media_payload evs.
Proof.
  revert s. induction evs as [|e evs IH]; intros s Ho He Hr; simpl in *.
  - reflexivity.
  - apply orb_false_iff in He. destruct He as [He Hrest].
    pose proof (step_chunks s e Ho) as Hc.
    pose proof (step_keeps_agent_open s e Ho He) as Ho'.
    destruct (step s e) as [s1 o1|s1 o1]; simpl in *; [|discriminate].
    rewrite returned_after in Hr.
    rewrite calls_after, flat_map_app, Hc. f_equal. now apply IH.
Qed.

Lemma caller_audio_relayed_in_order_witness :
  flat_map chunk_payload
    (calls (run (mkSession VNull (Some OPEN) false true false 0 0)
              [Ev_connection_message (Some (caller_media (VStr "AAAA")));
               Ev_connection_message (Some (caller_start (VStr "CA123")));
               Ev_connection_message (Some (caller_media (VStr "")));
               Ev_connection_message (Some (caller_media (VStr "BBBB")))]))
  = [VStr "AAAA"; VStr "BBBB"].
Proof.
  apply (caller_audio_relayed_in_order
           [Ev_connection_message (Some (caller_media (VStr "AAAA")));
            Ev_connection_message (Some (caller_start (VStr "CA123")));
            Ev_connection_message (Some (caller_media (VStr "")));
            Ev_connection_message (Some (caller_media (VStr "BBBB")))]
           (mkSession VNull (Some OPEN) false true false 0 0));
    reflexivity.
Defined.

Lemma step_keeps_streamSid (s : session) (e : event) :
  truthy (streamSid s) = true -> start_lacks_sid e = false ->
  truthy (streamSid (final (step s e))) = true.
Proof.
  intros Hs He. rewrite step_streamSid.
  destruct e as [|raw| | |[data|]| |]; simpl in *; try assumption.
  destruct (is_string (opt_prop data "event") "start"); simpl in *;
    [|assumption].
  apply negb_false_iff in He. now rewrite truthy_or_else_null.
Qed.

Lemma step_envelopes (s : session) (e : event) :
  truthy (streamSid s) = true ->
  flat_map envelope_payload (calls (step s e)) = audio_payload e.
Proof.
  intros Hs.
  destruct e as [|[msg|]| | |raw| |]; simpl; try reflexivity.
  - unfold elevenWs_on_open. simpl.
    destruct (elevenWs _); simpl; [|reflexivity]. now gate_cases.
  - unfold elevenWs_on_message.
    destruct (prop msg "type") as [type|] eqn:Hp; simpl.
    + rewrite (prop_opt_prop _ _ _ Hp). rewrite Hs. simpl.
      destruct (is_string type "audio") eqn:Ha; simpl.
      * rewrite (is_string_audio_not_interruption _ Ha). simpl.
        destruct (truthy (opt_prop _ "audio_base_64")); reflexivity.
      * rewrite andb_true_r. now destruct (is_string type "interruption").
    + now rewrite (prop_none_opt_prop _ _ Hp).
  - destruct raw as [data|]; [|reflexivity].
    unfold connection_on_message, close_elevenWs_if_open.
    repeat (first [gate_cases | case_if]; simpl); reflexivity.
  - unfold connection_on_close, close_elevenWs_if_open. now case_if.
  - unfold connection_on_error, close_elevenWs_if_open. now case_if.
Qed.

(** While a stream identifier stays on record (it is known and no
    "start" frame without identifier arrives), a run that is not cut short
    sends the caller exactly the truthy payloads of the agent's "audio"
    frames: each once, unchanged, in the order received. *)
Theorem agent_audio_relayed_in_order (evs : list event) (s : session) :
  truthy (streamSid s) = true ->
  existsb start_lacks_sid evs = false ->
  returned (run s evs) = true ->
  flat_map envelope_payload (calls (run s evs)) = flat_map audio_payload evs.
Proof.
  revert s. induction evs as [|e evs IH]; intros s Hs He Hr; simpl in *.
  - reflexivity.
  - apply orb_false_iff in He. destruct He as [He Hrest].
    pose proof (step_envelopes s e Hs) as Hc.
    pose proof (step_keeps_streamSid s e Hs He) as Hs'.
    destruct (step s e) as [s1 o1|s1 o1]; simpl in *; [|discriminate].
    rewrite returned_after in Hr.
    rewrite calls_after, flat_map_app, Hc. f_equal. now apply IH.
Qed.

Lemma agent_audio_relayed_in_order_witness :
  flat_map envelope_payload
    (calls (run (mkSession (VStr "CA123") (Some OPEN) true true true 0 0)
              [Ev_elevenWs_message (Some (agent_audio (VStr "QUJD")));
               Ev_elevenWs_message (Some agent_interruption);
               Ev_elevenWs_message (Some (agent_audio (VStr "REVG")))]))
  = [VStr "QUJD"; VStr "REVG"].
Proof.
  apply (agent_audio_relayed_in_order
           [Ev_elevenWs_message (Some (agent_audio (VStr "QUJD")));
            Ev_elevenWs_message (Some agent_interruption);
            Ev_elevenWs_message (Some (agent_audio (VStr "REVG")))]
           (mkSession (VStr "CA123") (Some OPEN) true true true 0 0));
    reflexivity.
Defined.

(** ** Messages no branch handles *)

Lemma step_unhandled (s : session) (e : event) :
  unhandled e = true -> step s e = Returns s [].
Proof.
  destruct e as [|[msg|]| | |[data|]| |]; simpl; try discriminate;
    try reflexivity; intros H; bool_hyps.
  - unfold elevenWs_on_message.
    destruct msg; try discriminate; unfold opt_prop in *; simpl in *;
      repeat match goal with H : ?b = false |- _ => rewrite H end;
      reflexivity.
  - unfold connection_on_message.
    destruct data; try discriminate; unfold opt_prop in *; simpl in *;
      repeat match goal with H : ?b = false |- _ => rewrite H end;
      reflexivity.
Qed.

(** Text that does not parse, agent frames of any type other than
    "audio" and "interruption" (pings, transcripts) and caller frames of
    any event other than "start", "media", "stop" leave no trace: a run
    with such a message anywhere in it is the run without it. *)
Theorem unhandled_messages_leave_no_trace
        (s : session) (pre post : list event) (e : event) :
  unhandled e = true ->
  run s (pre ++ e :: post) = run s (pre ++ post).
Proof.
  intros He. rewrite !run_app.
  destruct (run s pre) as [s1 o1|s1 o1]; [|reflexivity].
  cbn [run]. rewrite (step_unhandled s1 e He). simpl. now rewrite after_nil.
Qed.

Lemma unhandled_messages_leave_no_trace_witness :
  run init ([Ev_elevenWs_open]
            ++ Ev_elevenWs_message (Some (VObj [("type", VStr "ping")]))
            :: [Ev_connection_message (Some (caller_start (VStr "CA123")))])
  = run init ([Ev_elevenWs_open]
              ++ [Ev_connection_message (Some (caller_start (VStr "CA123")))]).
Proof.
  apply (unhandled_messages_leave_no_trace init [Ev_elevenWs_open]
           [Ev_connection_message (Some (caller_start (VStr "CA123")))]
           (Ev_elevenWs_message (Some (VObj [("type", VStr "ping")])))).
  reflexivity.
Defined.

(** ** More on the credential request *)

Lemma append_inj_l (p a b : string) : (p ++ a = p ++ b)%string -> a = b.
Proof.
  induction p as [|c p IH]; simpl; intros H; [exact H|].
  inversion H. now apply IH.
Qed.

Lemma string_append_assoc (a b c : string) :
  ((a ++ b) ++ c = a ++ (b ++ c))%string.
Proof. induction a as [|x a IH]; simpl; [reflexivity|now rewrite IH]. Qed.

Lemma string_length_app (a b : string) :
  String.length (a ++ b) = String.length a + String.length b.
Proof. induction a as [|x a IH]; simpl; [reflexivity|now rewrite IH]. Qed.

Lemma encodeURIComponent_length (s : string) :
  String.length s <= String.length (Url.encodeURIComponent s).
Proof.
  induction s as [|c s IH]; simpl; [lia|].
  rewrite string_length_app.
  destruct (Url.unreserved c); simpl; lia.
Qed.



(** Different agent identifiers give different request URLs. *)
Theorem getSignedUrl_url_injective (a b : string) :
  getSignedUrl_url a = getSignedUrl_url b -> a = b.
Proof.
  unfold getSignedUrl_url. intros H. apply append_inj_l in H.
  pose proof (percent_decode_encodeURIComponent a) as Ha.
  rewrite H, percent_decode_encodeURIComponent in Ha. now inversion Ha.
Qed.

Lemma getSignedUrl_url_injective_witness : "agent_1" = "agent_1".
Proof. apply getSignedUrl_url_injective. reflexivity. Defined.

(** ** Registration *)

Lemma encodeURIComponent_nonempty (s : string) :
  s <> EmptyString -> Url.encodeURIComponent s <> EmptyString.
Proof.
  intros Hs He. pose proof (encodeURIComponent_length s) as Hl.
  rewrite He in Hl. destruct s; [congruence|simpl in Hl; lia].
Qed.

(** Registration succeeds exactly when both environment variables are
    set and non-empty; it then keeps them as they are, so the credential
    request always carries a non-empty [agent_id] parameter. *)
Theorem registerInboundRoutes_requires_configuration
        (k i : option string) (key id : string) :
  registerInboundRoutes k i = Some (key, id) <->
  (k = Some key /\ i = Some id /\ key <> EmptyString /\ id <> EmptyString
   /\ Url.first_param "agent_id" (getSignedUrl_url id)
      = Some (Url.encodeURIComponent id)
   /\ Url.encodeURIComponent id <> EmptyString).
Proof.
  unfold registerInboundRoutes, env_missing. split.
  - destruct k as [k'|], i as [i'|]; simpl; try discriminate;
      try (rewrite orb_true_r; discriminate).
    destruct (k' =? "") eqn:Hk; [discriminate|].
    destruct (i' =? "") eqn:Hi; [discriminate|]. simpl.
    intros H. inversion H; subst.
    apply String.eqb_neq in Hk, Hi.
    repeat split; try assumption.
    + unfold getSignedUrl_url, Url.first_param. cbn.
      now rewrite until_delimiter_safe by apply encodeURIComponent_safe.
    + now apply encodeURIComponent_nonempty.
  - intros (-> & -> & Hk & Hi & _).
    apply String.eqb_neq in Hk, Hi. now rewrite Hk, Hi.
Qed.

Lemma registerInboundRoutes_requires_configuration_witness :
  registerInboundRoutes (Some "k") (Some "agent 1") = Some ("k", "agent 1").
Proof.
  apply registerInboundRoutes_requires_configuration.
  repeat split; try discriminate.
Defined.

(** ** Setting the session up *)

(** The handler either attaches its listeners, to the fresh session
    [init], or fails closed.  It attaches them exactly when the credential
    response is ok, its JSON body is not [null], and the socket
    constructor accepts the [signed_url] read from it.  In every other
    case no call is made on the agent socket, none is left behind
    ([elevenWs] is still [null]), and the caller's socket is closed if
    [connection.socket] exists. *)
Theorem media_stream_handler_listens_or_fails_closed
        (res : option response) (constructs : value -> bool)
        (connection_socket : bool) :
  let accepted :=
    match res with
    | Some r =>
        ok r
        && match json r with
           | Some j =>
               match prop j "signed_url" with
               | Some u => constructs u
               | None => false
               end
           | None => false
           end
    | None => false
    end in
  media_stream_handler res constructs connection_socket =
  if accepted then Listening init
  else Failed (mkSession VNull None false false false 0 0)
         (if connection_socket then [Close_connection_socket] else []).
Proof.
  unfold media_stream_handler, getSignedUrl.
  destruct res as [r|]; simpl; [|reflexivity].
  destruct (ok r); simpl.
  - destruct (json r) as [j|]; simpl; [|reflexivity].
    destruct (prop j "signed_url") as [u|]; simpl; [|reflexivity].
    now destruct (constructs u).
  - now destruct (text r).
Qed.

(** ** The webhook *)

Lemma trim_end_app (a b : string) :
  b <> EmptyString -> trim_end b = b -> trim_end (a ++ b)%string = (a ++ b)%string.
Proof.
  intros Hb Ht. induction a as [|c a IH]; simpl; [exact Ht|].
  rewrite IH. destruct (a ++ b)%string eqn:E; [|reflexivity].
  destruct a; simpl in E; congruence.
Qed.

Lemma until_quote_app (a rest : string) :
  all_chars not_quote a = true ->
  until_quote (a ++ dq ++ rest)%string = a.
Proof.
  unfold all_chars, dq. simpl.
  induction a as [|c a IH]; simpl; [reflexivity|].
  intros H. apply andb_true_iff in H. destruct H as [Hc Ha].
  unfold not_quote in Hc. apply negb_true_iff in Hc. rewrite Hc.
  now rewrite IH.
Qed.

Lemma all_chars_not_quote_app (a b : string) :
  all_chars not_quote (a ++ b) = all_chars not_quote a && all_chars not_quote b.
Proof. apply all_chars_app. Qed.

(** The webhook answers [text/xml] with a document that begins with the
    XML declaration (the line feed that opens the template is trimmed
    away, nothing else is) and ends with [</Response>].  Read back, the
    [url] of its [Stream] element is [wss://<host>/media-stream] for the
    [Host] header of the request, provided the header holds no double
    quote: the header is pasted in unescaped. *)
Theorem incoming_call_eleven_routes_to_host (host : string) :
  content_type (incoming_call_eleven (Some host)) = "text/xml"
  /\ body (incoming_call_eleven (Some host))
     = ("<?xml version=" ++ dq ++ "1.0" ++ dq ++ " encoding=" ++ dq ++ "UTF-8"
        ++ dq ++ "?>" ++ nl
        ++ "<Response>" ++ nl
        ++ "  <Connect>" ++ nl
        ++ "    <Stream url=" ++ dq ++ "wss://" ++ host ++ "/media-stream"
        ++ dq ++ " />" ++ nl
        ++ "  </Connect>" ++ nl
        ++ "</Response>")%string
  /\ (all_chars not_quote host = true ->
      stream_url (body (incoming_call_eleven (Some host)))
      = Some ("wss://" ++ host ++ "/media-stream")%string).
Proof.
  assert (Hbody :
    body (incoming_call_eleven (Some host))
    = ("<?xml version=" ++ dq ++ "1.0" ++ dq ++ " encoding=" ++ dq ++ "UTF-8"
       ++ dq ++ "?>" ++ nl
       ++ "<Response>" ++ nl
       ++ "  <Connect>" ++ nl
       ++ "    <Stream url=" ++ dq ++ "wss://" ++ host ++ "/media-stream"
       ++ dq ++ " />" ++ nl
       ++ "  </Connect>" ++ nl
       ++ "</Response>")%string).
  { unfold incoming_call_eleven, trim, twiml_template. cbn [body].
    change (trim_start (nl ++ ?x)) with x.
    set (tail := ("/media-stream" ++ dq ++ " />" ++ nl ++ "  </Connect>" ++ nl
                  ++ "</Response>")%string).
    set (head := ("<?xml version=" ++ dq ++ "1.0" ++ dq ++ " encoding=" ++ dq
                  ++ "UTF-8" ++ dq ++ "?>" ++ nl ++ "<Response>" ++ nl
                  ++ "  <Connect>" ++ nl ++ "    <Stream url=" ++ dq
                  ++ "wss://")%string).
    change (trim_end (head ++ host ++ tail) = (head ++ host ++ tail))%string.
    rewrite <- string_append_assoc.
    apply trim_end_app; [discriminate|reflexivity]. }
  split; [reflexivity|]. split; [exact Hbody|].
  intros Hq. rewrite Hbody. unfold stream_url.
  change (find_after ("<Stream url=" ++ dq)
            ("<?xml version=" ++ dq ++ "1.0" ++ dq ++ " encoding=" ++ dq
             ++ "UTF-8" ++ dq ++ "?>" ++ nl ++ "<Response>" ++ nl
             ++ "  <Connect>" ++ nl ++ "    <Stream url=" ++ dq ++ "wss://"
             ++ host ++ "/media-stream" ++ dq ++ " />" ++ nl ++ "  </Connect>"
             ++ nl ++ "</Response>"))%string
    with (Some ("wss://" ++ host ++ "/media-stream" ++ dq ++ " />" ++ nl
                ++ "  </Connect>" ++ nl ++ "</Response>")%string).
  cbn [option_map]. f_equal.
  replace ("wss://" ++ host ++ "/media-stream" ++ dq ++ " />" ++ nl
           ++ "  </Connect>" ++ nl ++ "</Response>")%string
    with (("wss://" ++ host ++ "/media-stream") ++ dq
          ++ (" />" ++ nl ++ "  </Connect>" ++ nl ++ "</Response>"))%string.
  - apply until_quote_app.
    rewrite !all_chars_not_quote_app, Hq. reflexivity.
  - rewrite !string_append_assoc. reflexivity.
Qed.

Lemma incoming_call_eleven_routes_to_host_witness :
  stream_url (body (incoming_call_eleven (Some "example.ngrok.app")))
  = Some "wss://example.ngrok.app/media-stream".
Proof.
  apply (incoming_call_eleven_routes_to_host "example.ngrok.app").
  reflexivity.
Defined.

(** ** The two revisions, seen from the caller *)

Lemma same_for_caller_sid (s : session) (s0 : Rev0.session) :
  same_for_caller s s0 ->
  truthy (Rev0.streamSid s0) = truthy (streamSid s)
  /\ (truthy (streamSid s) = true -> Rev0.streamSid s0 = streamSid s).
Proof.
  intros [[H|[H1 H2]] _].
  - rewrite H. now split.
  - rewrite H1, H2. split; [reflexivity|discriminate].
Qed.

Lemma to_string_raises_or_else (x : value) :
  to_string_raises x = false -> to_string_raises (or_else x VNull) = false.
Proof. unfold or_else. intros H. now destruct (truthy x). Qed.

Ltac same_finish :=
  unfold same_for_caller; simpl; repeat split; intros; auto;
  try congruence; try tauto;
  try match goal with
      | H : _ \/ (exists _ _, _) |- _ =>
          destruct H as [[? ?]|(? & ? & ? & ?)]; congruence
      end.

Lemma rev0_step_simulates (s : session) (s0 : Rev0.session) (e : event) :
  same_for_caller s s0 ->
  returned (rev0_step s0 e) = true ->
  returned (step s e) = true
  /\ same_for_caller (final (step s e)) (final (rev0_step s0 e))
  /\ caller_leg (calls (step s e)) = caller_leg (calls (rev0_step s0 e)).
Proof.
  intros Hrel Hr.
  destruct (same_for_caller_sid s s0 Hrel) as [Ht Heq].
  destruct Hrel as [Hsid Hws].
  destruct s as [sid w ts eo cs n1 n2], s0 as [sid0 w0]. simpl in *.
  assert (Hw : (w = None /\ w0 = None) \/ (exists r r0, w = Some r /\ w0 = Some r0)).
  { destruct w, w0; eauto; destruct Hws as [H1 H2];
      [specialize (H2 eq_refl)|specialize (H1 eq_refl)]; discriminate. }
  clear Hws.
  destruct e as [|[msg|]| | |[data|]| |]; cbn [step rev0_step] in *.
  - unfold Rev0.elevenWs_on_open, elevenWs_on_open, rev0_moves_to, ws_moves_to in *.
    simpl in *.
    destruct Hw as [[-> ->]|(r & r0 & -> & ->)]; simpl in *; [discriminate|].
    gate_cases; same_finish.
  - unfold Rev0.elevenWs_on_message, elevenWs_on_message in *. simpl in *.
    destruct (prop msg "type") as [type|]; [|discriminate].
    destruct (is_string type "audio") eqn:Ha; simpl.
    + rewrite (is_string_audio_not_interruption _ Ha). simpl.
      destruct (truthy (opt_prop _ "audio_base_64")); simpl; [|same_finish].
      rewrite Ht. destruct (truthy sid) eqn:Hs; simpl; [|same_finish].
      rewrite (Heq eq_refl). same_finish.
    + rewrite Ht. destruct (is_string type "interruption"); simpl;
        [|same_finish].
      destruct (truthy sid) eqn:Hs; simpl; [|same_finish].
      rewrite (Heq eq_refl). same_finish.
  - same_finish.
  - unfold rev0_moves_to, ws_moves_to. simpl.
    destruct Hw as [[-> ->]|(r & r0 & -> & ->)]; same_finish.
  - unfold rev0_moves_to, ws_moves_to. simpl.
    destruct Hw as [[-> ->]|(r & r0 & -> & ->)]; same_finish.
  - unfold Rev0.connection_on_message, connection_on_message in *. simpl in *.
    destruct (prop data "event") as [event|]; [|discriminate].
    destruct (is_string event "start") eqn:Hst.
    + destruct (prop (opt_prop data "start") "streamSid") as [x|] eqn:Hx0;
        [|discriminate].
      rewrite (prop_opt_prop _ _ _ Hx0).
      destruct (to_string_raises x) eqn:Hp; [discriminate|].
      cbn [streamSid set_twilioStarted set_streamSid].
      rewrite (to_string_raises_or_else _ Hp).
      gate_cases; unfold or_else; simpl;
        destruct (truthy x) eqn:Hx; simpl;
        destruct Hw as [[-> ->]|(r & r0 & -> & ->)]; same_finish.
    + assert (Hm : is_string event "media" = true ->
                   is_string event "stop" = false).
      { intros H. now rewrite (is_string_eq _ _ H). }
      unfold close_elevenWs_if_open, Rev0.close_elevenWs, elevenWs_is_open,
        Rev0.elevenWs_is_open.
      destruct (is_string event "media") eqn:Hmd;
        [rewrite (Hm eq_refl)|]; simpl;
        destruct Hw as [[-> ->]|(r & r0 & -> & ->)]; simpl;
        repeat (case_if; simpl); same_finish.
  - same_finish.
  - unfold connection_on_close, Rev0.connection_on_close,
      close_elevenWs_if_open, Rev0.close_elevenWs, elevenWs_is_open.
    destruct Hw as [[-> ->]|(r & r0 & -> & ->)]; simpl;
      repeat (case_if; simpl); same_finish.
  - unfold connection_on_error, Rev0.connection_on_error,
      close_elevenWs_if_open, Rev0.close_elevenWs, elevenWs_is_open.
    destruct Hw as [[-> ->]|(r & r0 & -> & ->)]; simpl;
      repeat (case_if; simpl); same_finish.
Qed.

Lemma caller_leg_app (a b : list action) :
  caller_leg (a ++ b) = caller_leg a ++ caller_leg b.
Proof. apply filter_app. Qed.

(** Adding the conversation gate changed nothing for the caller: on any
    sequence of events the earlier revision gets through without raising,
    the current one gets through as well and makes the same calls on the
    caller's socket, frame for frame. *)
Theorem revisions_send_the_caller_the_same
        (evs : list event) (s : session) (s0 : Rev0.session) :
  same_for_caller s s0 ->
  returned (rev0_run s0 evs) = true ->
  returned (run s evs) = true
  /\ caller_leg (calls (run s evs)) = caller_leg (calls (rev0_run s0 evs)).
Proof.
  revert s s0. induction evs as [|e evs IH]; intros s s0 Hrel Hr; simpl in *.
  - now split.
  - destruct (rev0_step s0 e) as [s0' o0|s0' o0] eqn:E0; [|discriminate].
    destruct (rev0_step_simulates s s0 e Hrel) as (Hr1 & Hrel1 & Hc1);
      [now rewrite E0|].
    rewrite E0 in Hrel1, Hc1. simpl in Hrel1, Hc1.
    destruct (step s e) as [s' o|s' o]; simpl in *; [|discriminate].
    destruct (rev0_run s0' evs) as [s0'' o0'|s0'' o0'] eqn:E1; [|discriminate].
    destruct (IH s' s0' Hrel1) as [Hr2 Hc2]; [now rewrite E1|].
    rewrite E1 in Hc2. simpl in Hc2.
    rewrite returned_after, calls_after. cbn [calls].
    rewrite !caller_leg_app, Hc1, Hc2. now split.
Qed.

Lemma revisions_send_the_caller_the_same_witness :
  caller_leg
    (calls (run init
              [Ev_connection_message (Some (caller_start (VStr "CA123")));
               Ev_elevenWs_open;
               Ev_elevenWs_message (Some (agent_audio (VStr "QUJD")));
               Ev_elevenWs_message (Some agent_interruption)]))
  = caller_leg
      (calls (rev0_run (rev0_view init)
                [Ev_connection_message (Some (caller_start (VStr "CA123")));
                 Ev_elevenWs_open;
                 Ev_elevenWs_message (Some (agent_audio (VStr "QUJD")));
                 Ev_elevenWs_message (Some agent_interruption)])).
Proof.
  apply (revisions_send_the_caller_the_same
           [Ev_connection_message (Some (caller_start (VStr "CA123")));
            Ev_elevenWs_open;
            Ev_elevenWs_message (Some (agent_audio (VStr "QUJD")));
            Ev_elevenWs_message (Some agent_interruption)]
           init (rev0_view init)).
  - split; [left; reflexivity|]. split; discriminate.
  - reflexivity.
Defined.

Lemma gate_is_settled_between_events_witness :
  tryStartConversation
    (final (run init [Ev_elevenWs_open;
                      Ev_connection_message (Some (caller_start (VStr "CA123")))]))
  = (final (run init [Ev_elevenWs_open;
                      Ev_connection_message (Some (caller_start (VStr "CA123")))]),
     []).
Proof.
  apply (gate_is_settled_between_events
           [Ev_elevenWs_open;
            Ev_connection_message (Some (caller_start (VStr "CA123")))]).
  reflexivity.
Defined.


(** ** A hang-up before the agent socket has opened *)

(** If the caller hangs up (close, error or "stop") while the agent
    socket is still connecting, the current revision makes no call: the
    socket is left to open, and when it does the bridge greets it with the
    configuration frame all the same.  The earlier revision closed the
    connecting socket at the hang-up. *)
Theorem hang_up_while_connecting_leaves_agent_socket
        (s : session) (e : event) :
  elevenWs s = Some CONNECTING ->
  caller_teardown e = true ->
  step s e = Returns s []
  /\ (exists (s' : session) (rest : list action),
         run s [e; Ev_elevenWs_open]
         = Returns s' (Send_elevenWs conversation_config_frame :: rest)
         /\ elevenWs s' = Some OPEN)
  /\ rev0_step (rev0_view s) e
     = Returns (Rev0.mkSession (streamSid s) (Some CLOSING)) [Close_elevenWs].
Proof.
  intros Hw He.
  assert (Hc : elevenWs_is_open s = false)
    by (unfold elevenWs_is_open; now rewrite Hw).
  destruct (caller_teardown_step s e He) as [_ Hstep].
  specialize (Hstep Hc). split; [exact Hstep|]. split.
  - cbn [run]. rewrite Hstep. cbn [step after].
    unfold elevenWs_on_open, ws_moves_to. rewrite Hw. simpl.
    gate_cases; simpl; eauto.
  - destruct e as [| | | |[data|]| |]; try discriminate; cbn [rev0_step].
    + simpl in He. apply opt_prop_is_string in He.
      unfold Rev0.connection_on_message. rewrite He. simpl.
      unfold Rev0.close_elevenWs, Rev0.elevenWs_is_open. simpl.
      now rewrite Hw.
    + unfold Rev0.connection_on_close, Rev0.close_elevenWs. simpl.
      now rewrite Hw.
    + unfold Rev0.connection_on_error, Rev0.close_elevenWs. simpl.
      now rewrite Hw.
Qed.

Lemma hang_up_while_connecting_leaves_agent_socket_witness :
  step init Ev_connection_close = Returns init [].
Proof.
  apply (hang_up_while_connecting_leaves_agent_socket init Ev_connection_close);
    reflexivity.
Defined.
